(** * TownKart delivery system: order lifecycle and inventory reconciliation

    A shallow embedding of the order handlers of the backend
    (controllers/orders.js), of the save hooks of the Order and Product
    models, and of the shop-rating handler (controllers/shops.js), with
    the properties the specification states about them; then of the
    product handlers (controllers/products.js), of the Notification model
    and its routes, of the routers and of the error middleware
    (server.js), with properties of their own.

    Modelling conventions.
    - A collection is a finite map from document identifiers to documents:
      a document's [_id] is its key, [findById] is lookup and [save] is
      insert at that key.
    - A document is a record of the paths of its schema that the handlers
      or the statements read or write.  A path the schema does not declare
      is undefined on every document: the order handlers read [order.user]
      and [order.statusHistory], which [orderSchema] does not declare
      (it has [customer]), and the rating handler of the products reads
      [product.ratings], which [productSchema] does not declare.
    - The schema's defaults and pre-save hooks are part of the model, and so
      are the validators that the input of a handler decides: the required
      paths of a new order and of a new notification, and the minimum of a
      stock taken from the request.  Stored documents are valid ones.
    - JavaScript numbers are exact integers ([Z]); the one division of the
      development, the running average of [updateShopRating], is an exact
      rational ([Q]) where the program rounds to a double.
    - The clock and the identifier drawn for a new document are inputs of
      a handler ([Env]).
    - A handler maps the database to a new database and a response: a JSON
      answer, an [ErrorResponse] handed to [next], or an exception that
      escapes the handler. *)

From Stdlib Require Import ZArith NArith QArith Qround Ascii String List Lia.
From stdpp Require Import base option gmap strings list fin_maps sorting.

Local Open Scope Z_scope.

(** ** Data model *)

(** utils/errorResponse: [new ErrorResponse(message, statusCode)]. *)
Record ErrorResponse := mkError { message : string; statusCode : Z }.

(** The value of [item.product] in a request body: the identifier itself,
    or an object carrying [_id] and possibly a [shop] property of its own. *)
Inductive ProductRef :=
| RefId (id : string)
| RefObj (_id : string) (shop : option string).

(** [ref.shop]: a string has no such property. *)
Definition ref_shop (r : ProductRef) : option string :=
  match r with
  | RefId _ => None
  | RefObj _ s => s
  end.

(** The identifier a reference is cast to by [findById] and by the
    [product] path of an order item. *)
Definition castObjectId (r : ProductRef) : string :=
  match r with
  | RefId id => id
  | RefObj id _ => id
  end.

(** Template-literal interpolation [`${item.product}`]. *)
Definition ref_toString (r : ProductRef) : string :=
  match r with
  | RefId id => id
  | RefObj _ _ => "[object Object]"
  end.

Module Date.
Record t := mk { getFullYear : N; getMonth : N; getDate : N; msOfDay : N }.
End Date.

Module Product.
Record t := mk {
  shop : string;
  name : string;
  price : Z;
  stock : Z;
  isAvailable : bool;
  isActive : bool }.
End Product.

(** An element of [req.body.items]. *)
Module ReqItem.
Record t := mk { product : ProductRef; quantity : Z }.
End ReqItem.

(** An element of [orderItems], as pushed by [createOrder]. *)
Module PushedItem.
Record t := mk { product : ProductRef; quantity : Z; price : Z; total : Z }.
End PushedItem.

(** A stored line item ([orderItemSchema]). *)
Module OrderItem.
Record t := mk { product : string; quantity : Z; price : Z; total : Z }.
End OrderItem.

(** A document of [orderSchema].  [None] is a path that is not set; an
    order number that is not set is the empty string. *)
Module Order.
Record t := mk {
  orderNumber : string;
  customer : option string;
  shop : option string;
  items : list OrderItem.t;
  subtotal : option Z;
  deliveryCharge : Z;
  total : Z;
  status : string;
  paymentMethod : option string;
  deliveryType : option string;
  deliveryAddress : option string;
  deliveryInstructions : option string;
  actualDeliveryTime : option Date.t;
  rating : option Z;
  review : option string;
  createdAt : Date.t }.
End Order.

Module Shop.
Record t := mk { owner : string; rating : Q; totalRatings : Z }.
End Shop.

(** The arguments of [Notification.createOrderStatusNotification]; the
    title and message of the stored notification are formatted from them.
    The recipient may be [undefined]. *)
Module Notification.
Record t := mk { user : option string; orderId : string; status : string; orderNumber : string }.
End Notification.

(** [req.user], as set by the authentication middleware. *)
Module User.
Record t := mk { id : string; shop : option string; address : option string }.
End User.

Record DB := mkDB {
  products : gmap string Product.t;
  orders : gmap string Order.t;
  shops : gmap string Shop.t;
  notifications : list Notification.t }.

Record Env := mkEnv { now : Date.t; newId : string }.

Inductive Response (A : Type) :=
| Json (code : Z) (data : A)
| Next (e : ErrorResponse)
| Throws.

Arguments Json {A} code data.
Arguments Next {A} e.
Arguments Throws {A}.

(** ** Product model *)

(** [productSchema.pre('save')]: availability follows stock. *)
Definition Product_pre_save (p : Product.t) : Product.t :=
  Product.mk (Product.shop p) (Product.name p) (Product.price p) (Product.stock p)
             (0 <? Product.stock p) (Product.isActive p).

Definition Product_save (id : string) (p : Product.t) (ps : gmap string Product.t)
  : gmap string Product.t :=
  <[id := Product_pre_save p]> ps.

Definition set_stock (p : Product.t) (s : Z) : Product.t :=
  Product.mk (Product.shop p) (Product.name p) (Product.price p) s
             (Product.isAvailable p) (Product.isActive p).

(** ** createOrder: the reservation loop *)

(** One iteration of [for (const item of items)]: look the product up,
    refuse it when missing, inactive or short of stock, otherwise take the
    quantity off its stock, save it and describe the line. *)
Definition reserve (item : ReqItem.t) (ps : gmap string Product.t)
  : gmap string Product.t * (ErrorResponse + PushedItem.t) :=
  match ps !! castObjectId (ReqItem.product item) with
  | None =>
      (ps, inl (mkError ("Product " +:+ ref_toString (ReqItem.product item) +:+ " not found") 404))
  | Some product =>
      if negb (Product.isActive product) then
        (ps, inl (mkError ("Product " +:+ Product.name product +:+ " is not available") 400))
      else if Product.stock product <? ReqItem.quantity item then
        (ps, inl (mkError ("Insufficient stock for " +:+ Product.name product) 400))
      else
        let product' := set_stock product (Product.stock product - ReqItem.quantity item) in
        (Product_save (castObjectId (ReqItem.product item)) product' ps,
         inr (PushedItem.mk (ReqItem.product item) (ReqItem.quantity item)
                (Product.price product)
                (Product.price product * ReqItem.quantity item)))
  end.

(** The whole loop, threading [total] and [orderItems]; an error returns
    at once, with the products as the earlier iterations left them. *)
Fixpoint reserveItems (items : list ReqItem.t) (ps : gmap string Product.t)
    (total : Z) (orderItems : list PushedItem.t)
  : gmap string Product.t * (ErrorResponse + (Z * list PushedItem.t)) :=
  match items with
  | [] => (ps, inr (total, orderItems))
  | item :: rest =>
      match reserve item ps with
      | (ps', inl e) => (ps', inl e)
      | (ps', inr line) =>
          reserveItems rest ps' (total + PushedItem.total line) (orderItems ++ [line])
      end
  end.

(** ** Numbers and strings of the order number *)

Definition digitChar (n : N) : ascii := ascii_of_N (48 + n).

(** Decimal digits, most significant first; [fuel] bounds the number of
    digits. *)
Fixpoint toDigits (fuel : nat) (n : N) : string :=
  match fuel with
  | O => ""
  | S f =>
      if (n <? 10)%N then String (digitChar n) ""
      else toDigits f (n / 10)%N +:+ String (digitChar (n mod 10)%N) ""
  end.

(** [n.toString()] for a non-negative integer. *)
Definition Number_toString (n : N) : string :=
  toDigits (S (S (N.to_nat (N.log2 n)))) n.

Fixpoint repeat_char (c : ascii) (k : nat) : string :=
  match k with
  | O => ""
  | S k' => String c (repeat_char c k')
  end.

(** [s.padStart(target, c)]: a string already long enough is returned as
    it is. *)
Definition padStart (target : nat) (c : ascii) (s : string) : string :=
  repeat_char c (target - String.length s) +:+ s.

(** [s.slice(-k)]: the last [k] characters, the whole string when it is
    shorter. *)
Definition slice_last (k : nat) (s : string) : string :=
  substring (String.length s - k) k s.

(** Reading a decimal string back (used to state what the sequence digits
    denote). *)
Definition digitVal (c : ascii) : N := (N_of_ascii c - 48)%N.

Fixpoint parseDigits (acc : N) (s : string) : N :=
  match s with
  | EmptyString => acc
  | String c s' => parseDigits (acc * 10 + digitVal c)%N s'
  end.

(** ** Dates *)

Definition Date_compare (a b : Date.t) : comparison :=
  match (Date.getFullYear a ?= Date.getFullYear b)%N with
  | Eq =>
      match (Date.getMonth a ?= Date.getMonth b)%N with
      | Eq =>
          match (Date.getDate a ?= Date.getDate b)%N with
          | Eq => (Date.msOfDay a ?= Date.msOfDay b)%N
          | c => c
          end
      | c => c
      end
  | c => c
  end.

(** [a >= b] and [a < b] on dates. *)
Definition Date_geb (a b : Date.t) : bool :=
  match Date_compare a b with Lt => false | _ => true end.

Definition Date_ltb (a b : Date.t) : bool :=
  match Date_compare a b with Lt => true | _ => false end.

(** [new Date(y, m, d)]: midnight of that day.  A day number one past the
    end of the month is kept as it is: in the order of [Date_compare] it
    comes after every moment of the month's last day and before the next
    month, as the first of the next month does. *)
Definition Date_ymd (y m d : N) : Date.t := Date.mk y m d 0.

(** ** Order model *)

Definition Order_set_orderNumber (o : Order.t) (n : string) : Order.t :=
  Order.mk n (Order.customer o) (Order.shop o) (Order.items o) (Order.subtotal o)
    (Order.deliveryCharge o) (Order.total o) (Order.status o) (Order.paymentMethod o)
    (Order.deliveryType o) (Order.deliveryAddress o) (Order.deliveryInstructions o)
    (Order.actualDeliveryTime o) (Order.rating o) (Order.review o) (Order.createdAt o).

(** [countDocuments({ createdAt: { $gte: lo, $lt: hi } })]. *)
Definition countCreatedBetween (lo hi : Date.t) (coll : gmap string Order.t) : N :=
  N.of_nat (length (List.filter
    (fun kv => Date_geb (Order.createdAt (snd kv)) lo && Date_ltb (Order.createdAt (snd kv)) hi)
    (map_to_list coll))).

(** The order number built by [orderSchema.pre('save')] on [date] when
    [orderCount] orders of that day are already stored. *)
Definition orderNumberFor (date : Date.t) (orderCount : N) : string :=
  let year := slice_last 2 (Number_toString (Date.getFullYear date)) in
  let month := padStart 2 "0" (Number_toString (Date.getMonth date + 1)) in
  let day := padStart 2 "0" (Number_toString (Date.getDate date)) in
  let sequence := padStart 4 "0" (Number_toString (orderCount + 1)) in
  "ORD" +:+ year +:+ month +:+ day +:+ sequence.

(** [orderSchema.pre('save')]: a new document gets its order number from
    the date and the number of orders stored for that day. *)
Definition Order_pre_save (isNew : bool) (date : Date.t) (coll : gmap string Order.t)
    (o : Order.t) : Order.t :=
  if isNew then
    let todayStart := Date_ymd (Date.getFullYear date) (Date.getMonth date) (Date.getDate date) in
    let todayEnd := Date_ymd (Date.getFullYear date) (Date.getMonth date) (Date.getDate date + 1) in
    let orderCount := countCreatedBetween todayStart todayEnd coll in
    Order_set_orderNumber o (orderNumberFor date orderCount)
  else o.

(** The object [createOrder] hands to [Order.create]. *)
Record OrderDoc := mkDoc {
  doc_user : string;
  doc_items : list PushedItem.t;
  doc_total : Z;
  doc_deliveryFee : Z;
  doc_deliveryAddress : option string;
  doc_deliveryInstructions : option string;
  doc_paymentMethod : option string;
  doc_shop : option string }.

Definition castItem (i : PushedItem.t) : OrderItem.t :=
  OrderItem.mk (castObjectId (PushedItem.product i)) (PushedItem.quantity i)
    (PushedItem.price i) (PushedItem.total i).

(** [a || b] on optional values. *)
Definition or_else {A} (a b : option A) : option A :=
  match a with Some _ => a | None => b end.

(** [new Order(doc)]: the schema is strict, so the keys [user] and
    [deliveryFee] of the object, which are not paths of it, are dropped;
    [customer], [subtotal], [deliveryType] and [orderNumber] are not among
    the keys and stay unset; the defaults fill the status, the delivery
    charge and the payment method. *)
Definition Order_build (env : Env) (doc : OrderDoc) : Order.t :=
  Order.mk "" None (doc_shop doc) (castItem <$> doc_items doc) None 0 (doc_total doc)
    "pending" (or_else (doc_paymentMethod doc) (Some "cod")) None
    (doc_deliveryAddress doc) (doc_deliveryInstructions doc) None None None (now env).

(** What the pre-save hook makes of that document. *)
Definition Order_new (env : Env) (doc : OrderDoc) (coll : gmap string Order.t) : Order.t :=
  Order_pre_save true (now env) coll (Order_build env doc).

(** The paths [orderSchema] requires ([total], also required, is always
    among the keys); a required string must not be empty. *)
Definition Order_required (o : Order.t) : bool :=
  negb (String.eqb (Order.orderNumber o) "") &&
  bool_decide (is_Some (Order.customer o)) &&
  bool_decide (is_Some (Order.shop o)) &&
  bool_decide (is_Some (Order.subtotal o)) &&
  bool_decide (is_Some (Order.deliveryType o)).

(** [Order.create(doc)]: the document is validated before the pre-save
    hooks run, and one that lacks a required path is rejected with a
    ValidationError ([None]), nothing being stored. *)
Definition Order_create (env : Env) (doc : OrderDoc) (coll : gmap string Order.t)
  : option (gmap string Order.t) :=
  if Order_required (Order_build env doc)
  then Some (<[newId env := Order_new env doc coll]> coll)
  else None.

(** ** Handlers of controllers/orders.js *)

Record CreateBody := mkBody {
  body_items : option (list ReqItem.t);
  body_deliveryAddress : option string;
  body_deliveryInstructions : option string;
  body_paymentMethod : option string }.

Definition set_products (db : DB) (ps : gmap string Product.t) : DB :=
  mkDB ps (orders db) (shops db) (notifications db).

Definition set_orders (db : DB) (os : gmap string Order.t) : DB :=
  mkDB (products db) os (shops db) (notifications db).

Definition set_shops (db : DB) (ss : gmap string Shop.t) : DB :=
  mkDB (products db) (orders db) ss (notifications db).

(** [Notification.createOrderStatusNotification(userId, orderId, status,
    orderNumber)]: [notificationSchema] requires [user], so a call without
    a recipient is rejected with a ValidationError ([None]) and stores
    nothing. *)
Definition createOrderStatusNotification (userId : option string)
    (orderId status orderNumber : string) (db : DB) : option DB :=
  match userId with
  | None => None
  | Some _ =>
      Some (mkDB (products db) (orders db) (shops db)
              (notifications db ++ [Notification.mk userId orderId status orderNumber]))
  end.

(** [.populate('shop', 'name location')] of an order: whether
    [populatedOrder.shop] is an object, which it is when the order has a
    shop and that shop is stored.  The object carries the shop's name and
    location only. *)
Definition populate_shop (db : DB) (o : Order.t) : bool :=
  match Order.shop o with
  | Some sid => bool_decide (is_Some (shops db !! sid))
  | None => false
  end.

(** The fee of [createOrder]: [total > 500 ? 0 : 50]. *)
Definition deliveryFeeFor (total : Z) : Z := if 500 <? total then 0 else 50.

(** The object literal of [createOrder]'s call of [Order.create]; [first]
    is [orderItems[0]], whose [product] is the request's [item.product]. *)
Definition orderDocument (user : User.t) (body : CreateBody)
    (orderItems : list PushedItem.t) (first : PushedItem.t) (total deliveryFee : Z)
  : OrderDoc :=
  mkDoc (User.id user) orderItems total deliveryFee
    (or_else (body_deliveryAddress body) (User.address user))
    (body_deliveryInstructions body) (body_paymentMethod body)
    (ref_shop (PushedItem.product first)).

(** [exports.createOrder]. *)
Definition createOrder (env : Env) (user : User.t) (body : CreateBody) (db : DB)
  : DB * Response Order.t :=
  match body_items body with
  | None | Some [] => (db, Next (mkError "Please add items to your order" 400))
  | Some items =>
      match reserveItems items (products db) 0 [] with
      | (ps, inl e) => (set_products db ps, Next e)
      | (ps, inr (total, orderItems)) =>
          let db1 := set_products db ps in
          let deliveryFee := deliveryFeeFor total in
          let total := total + deliveryFee in
          match orderItems with
          | [] => (db1, Throws)
          | first :: _ =>
              let doc := orderDocument user body orderItems first total deliveryFee in
              match Order_create env doc (orders db1) with
              | None => (db1, Throws)
              | Some stored =>
                  let order := Order_new env doc (orders db1) in
                  let db2 := set_orders db1 stored in
                  (* [populatedOrder.shop.owner]: a TypeError when the shop
                     is null, otherwise undefined, [owner] not being
                     populated *)
                  if populate_shop db2 order then
                    match createOrderStatusNotification None (newId env) "pending"
                            (Order.orderNumber order) db2 with
                    | Some db3 => (db3, Json 201 order)
                    | None => (db2, Throws)
                    end
                  else (db2, Throws)
              end
          end
      end
  end.

(** [exports.updateOrderStatus].  After the two guards the handler sets
    [order.status] on the document in memory and calls
    [order.statusHistory.push]: [statusHistory] is not a path of
    [orderSchema], so this is a TypeError, raised before [order.save()]. *)
Definition updateOrderStatus (env : Env) (user : User.t) (id status : string) (db : DB)
  : DB * Response Order.t :=
  match orders db !! id with
  | None => (db, Next (mkError "Order not found" 404))
  | Some order =>
      match Order.shop order, User.shop user with
      | Some oshop, Some ushop =>
          if negb (String.eqb oshop ushop) then
            (db, Next (mkError "Not authorized to update this order" 401))
          else (db, Throws)
      | _, _ => (db, Throws)
      end
  end.

(** [exports.cancelOrder].  The ownership guard reads
    [order.user.toString()]: [user] is not a path of [orderSchema]
    (the customer is stored as [customer]), so for every order found this
    is a TypeError, raised before the status and the stock are touched. *)
Definition cancelOrder (env : Env) (user : User.t) (id : string) (db : DB)
  : DB * Response Order.t :=
  match orders db !! id with
  | None => (db, Next (mkError "Order not found" 404))
  | Some order => (db, Throws)
  end.

(** [exports.rateOrder].  As in [cancelOrder], the ownership guard throws
    for every order found, before the guards on the status and on an
    earlier rating and before the shop's rating is computed again. *)
Definition rateOrder (env : Env) (user : User.t) (id : string) (rating : Z)
    (review : option string) (db : DB) : DB * Response Order.t :=
  if (rating <? 1) || (5 <? rating) then
    (db, Next (mkError "Rating must be between 1 and 5" 400))
  else
    match orders db !! id with
    | None => (db, Next (mkError "Order not found" 404))
    | Some order => (db, Throws)
    end.

(** ** Handler of controllers/shops.js *)

(** [updateShopRating]: the incremental, weighted update of a shop's
    rating by one explicit rating. *)
Definition updateShopRating (id : string) (rating : Z) (db : DB) : DB * Response Shop.t :=
  if (rating =? 0) || (rating <? 1) || (5 <? rating) then
    (db, Next (mkError "Please provide a valid rating between 1 and 5" 400))
  else
    match shops db !! id with
    | None => (db, Next (mkError ("Shop not found with id of " +:+ id) 404))
    | Some shop =>
        let newTotalRatings := Shop.totalRatings shop + 1 in
        let newRating :=
          ((Shop.rating shop * inject_Z (Shop.totalRatings shop) + inject_Z rating)
           / inject_Z newTotalRatings)%Q in
        let shop' := Shop.mk (Shop.owner shop) newRating newTotalRatings in
        (set_shops db (<[id := shop']> (shops db)), Json 200 shop')
    end.

(** ** The errors of the specification *)

Definition NotFound_product (ref : ProductRef) : ErrorResponse :=
  mkError ("Product " +:+ ref_toString ref +:+ " not found") 404.

Definition Unavailable (p : Product.t) : ErrorResponse :=
  mkError ("Product " +:+ Product.name p +:+ " is not available") 400.

Definition InsufficientStock (p : Product.t) : ErrorResponse :=
  mkError ("Insufficient stock for " +:+ Product.name p) 400.

Definition NotFound_order : ErrorResponse := mkError "Order not found" 404.

Definition Forbidden_update : ErrorResponse := mkError "Not authorized to update this order" 401.

Definition Forbidden_rate : ErrorResponse := mkError "Not authorized to rate this order" 401.

Definition InvalidTransition_rate : ErrorResponse :=
  mkError "Order must be delivered before rating" 400.

Definition AlreadyRated : ErrorResponse := mkError "Order already rated" 400.

Definition ValidationError_items : ErrorResponse := mkError "Please add items to your order" 400.

(** ** Quantities the statements speak about *)

(** The stock of a product, if it is stored. *)
Definition stockOf (ps : gmap string Product.t) (pid : string) : option Z :=
  Product.stock <$> ps !! pid.

(** Units of product [pid] requested by a list of request items. *)
Fixpoint quantityOf (pid : string) (items : list ReqItem.t) : Z :=
  match items with
  | [] => 0
  | it :: rest =>
      (if decide (castObjectId (ReqItem.product it) = pid) then ReqItem.quantity it else 0)
      + quantityOf pid rest
  end.

(** Sum of the line totals of an order. *)
Fixpoint subtotal (items : list OrderItem.t) : Z :=
  match items with
  | [] => 0
  | it :: rest => OrderItem.total it + subtotal rest
  end.

(** The unit price of a product, if it is stored. *)
Definition priceOf (ps : gmap string Product.t) (pid : string) : option Z :=
  Product.price <$> ps !! pid.

(** What a pushed line records about the request item it comes from. *)
Definition line_of (ps : gmap string Product.t) (it : ReqItem.t) (line : PushedItem.t) : Prop :=
  PushedItem.product line = ReqItem.product it /\
  PushedItem.quantity line = ReqItem.quantity it /\
  priceOf ps (castObjectId (ReqItem.product it)) = Some (PushedItem.price line) /\
  PushedItem.total line = PushedItem.price line * PushedItem.quantity line.

(** ** The order number, as the specification words it *)

(** The two and the four low decimal digits of a number. *)
Definition digits2 (n : N) : string :=
  String (digitChar ((n / 10) mod 10)) (String (digitChar (n mod 10)) "").

Definition digits4 (n : N) : string :=
  String (digitChar ((n / 1000) mod 10))
    (String (digitChar ((n / 100) mod 10)) (digits2 n)).

(** Orders created on the calendar day of [date]. *)
Definition sameDay (date : Date.t) (o : Order.t) : bool :=
  (Date.getFullYear (Order.createdAt o) =? Date.getFullYear date)%N &&
  (Date.getMonth (Order.createdAt o) =? Date.getMonth date)%N &&
  (Date.getDate (Order.createdAt o) =? Date.getDate date)%N.

Definition ordersOfDay (date : Date.t) (coll : gmap string Order.t) : N :=
  N.of_nat (length (List.filter (fun kv => sameDay date (snd kv)) (map_to_list coll))).

(** ** What the statements about the product collection speak of *)

(** Two versions of a product agree on everything but stock and
    availability. *)
Definition same_description (p p' : Product.t) : Prop :=
  Product.shop p' = Product.shop p /\
  Product.name p' = Product.name p /\
  Product.price p' = Product.price p /\
  Product.isActive p' = Product.isActive p.

(** The same products are stored, each with the same description. *)
Definition only_stock_changes (ps ps' : gmap string Product.t) : Prop :=
  forall k, option_Forall2 same_description (ps !! k) (ps' !! k).

(** Every stored product is flagged available exactly when it has stock. *)
Definition availability_ok (ps : gmap string Product.t) : Prop :=
  forall k p, ps !! k = Some p -> Product.isAvailable p = (0 <? Product.stock p).

(** No stored product has a negative stock. *)
Definition stock_nonneg (ps : gmap string Product.t) : Prop :=
  forall k p, ps !! k = Some p -> 0 <= Product.stock p.

(** ** The pagination of the listing handlers (controllers/orders.js) *)

Record Pagination := mkPagination {
  currentPage : Z;
  totalPages : option Z;
  totalItems : Z;
  hasNextPage : bool;
  hasPrevPage : bool }.

(** [a <= b] on dates. *)
Definition Date_leb (a b : Date.t) : bool :=
  match Date_compare a b with Gt => false | _ => true end.

(** [Order.find(query)]: the stored orders the query matches. *)
Definition Order_find (matches : Order.t -> bool) (coll : gmap string Order.t) : list Order.t :=
  List.filter matches (snd <$> map_to_list coll).

(** [Math.ceil(total / limit)]; the quotient by a zero limit is not a
    number. *)
Definition ceil_div (total limit : Z) : option Z :=
  if limit =? 0 then None
  else Some (Qceiling (inject_Z total / inject_Z limit)).

(** The [pagination] object of a listing answer. *)
Definition pagination (page limit total : Z) : Pagination :=
  mkPagination page (ceil_div total limit) total (page * limit <? total) (1 <? page).

(** ** Order statistics (orderSchema.statics.getStats) *)

Module StatGroup.
Record t := mk { _id : string; count : Z; totalAmount : Z }.
End StatGroup.

(** One document entering the [$group] stage: its status group is counted
    up, or opened. *)
Fixpoint addToGroup (status : string) (amount : Z) (groups : list StatGroup.t)
  : list StatGroup.t :=
  match groups with
  | [] => [StatGroup.mk status 1 amount]
  | g :: rest =>
      if String.eqb (StatGroup._id g) status
      then StatGroup.mk status (StatGroup.count g + 1) (StatGroup.totalAmount g + amount) :: rest
      else g :: addToGroup status amount rest
  end.

(** [{ $group: { _id: '$status', count: { $sum: 1 }, totalAmount: { $sum: '$total' } } }]. *)
Definition groupByStatus (l : list Order.t) : list StatGroup.t :=
  fold_left (fun groups o => addToGroup (Order.status o) (Order.total o) groups) l [].

(** The [$match] stage of [getStats]. *)
Definition inStats (shopId : string) (startDate endDate : Date.t) (o : Order.t) : bool :=
  bool_decide (Order.shop o = Some shopId) &&
  Date_geb (Order.createdAt o) startDate && Date_leb (Order.createdAt o) endDate.

(** [orderSchema.statics.getStats(shopId, startDate, endDate)]. *)
Definition Order_getStats (shopId : string) (startDate endDate : Date.t)
    (coll : gmap string Order.t) : list StatGroup.t :=
  groupByStatus (Order_find (inStats shopId startDate endDate) coll).

(** Sums over statistics and over orders. *)
Definition sumCounts (gs : list StatGroup.t) : Z :=
  foldr (fun g s => StatGroup.count g + s) 0 gs.

Definition sumAmounts (gs : list StatGroup.t) : Z :=
  foldr (fun g s => StatGroup.totalAmount g + s) 0 gs.

Definition sumTotals (l : list Order.t) : Z :=
  foldr (fun o s => Order.total o + s) 0 l.

Definition withStatus (status : string) (l : list Order.t) : list Order.t :=
  List.filter (fun o => String.eqb (Order.status o) status) l.

(** [b] is not older than [a], spelled out. *)
Definition not_older (a b : Date.t) : Prop :=
  (Date.getFullYear b < Date.getFullYear a \/
   Date.getFullYear b = Date.getFullYear a /\
   (Date.getMonth b < Date.getMonth a \/
    Date.getMonth b = Date.getMonth a /\
    (Date.getDate b < Date.getDate a \/
     Date.getDate b = Date.getDate a /\ Date.msOfDay b <= Date.msOfDay a)))%N.

(** What the groups say about a list of orders: one group per status that
    occurs, counting the orders of that status and adding up their
    totals. *)
Definition groups_describe (gs : list StatGroup.t) (l : list Order.t) : Prop :=
  NoDup (StatGroup._id <$> gs) /\
  (forall g, g ∈ gs ->
     0 < StatGroup.count g /\
     StatGroup.count g = Z.of_nat (length (withStatus (StatGroup._id g) l)) /\
     StatGroup.totalAmount g = sumTotals (withStatus (StatGroup._id g) l)) /\
  (forall o, o ∈ l -> Order.status o ∈ StatGroup._id <$> gs).

(** ** Product model: virtuals *)

(** [productSchema.virtual('stockStatus')], of a product with the given
    stock and minimum stock. *)
Definition stockStatus (stock minStock : Z) : string :=
  if stock =? 0 then "out_of_stock"
  else if stock <=? minStock then "low_stock"
  else "in_stock".

(** ** Handlers of controllers/products.js *)

Definition set_isActive (p : Product.t) (b : bool) : Product.t :=
  Product.mk (Product.shop p) (Product.name p) (Product.price p) (Product.stock p)
             (Product.isAvailable p) b.

(** The guard shared by the handlers of a shop owner: the product must be
    stored and belong to the caller's shop; [req.user.shop.toString()]
    throws for a caller without a shop. *)
Definition ownProduct {A} (user : User.t) (id : string) (db : DB) (notAuthorized : string)
    (k : Product.t -> DB * Response A) : DB * Response A :=
  match products db !! id with
  | None => (db, Next (mkError "Product not found" 404))
  | Some product =>
      match User.shop user with
      | None => (db, Throws)
      | Some shop =>
          if negb (String.eqb (Product.shop product) shop)
          then (db, Next (mkError notAuthorized 401))
          else k product
      end
  end.

(** [exports.updateStock]: [productSchema] gives [stock] the minimum 0, so
    saving a negative stock is rejected with a ValidationError. *)
Definition updateStock (user : User.t) (id : string) (stock : Z) (db : DB)
  : DB * Response Product.t :=
  ownProduct user id db "Not authorized to update this product" (fun product =>
    if stock <? 0 then (db, Throws)
    else
      let product' := set_stock product stock in
      (set_products db (Product_save id product' (products db)),
       Json 200 (Product_pre_save product'))).

(** [exports.toggleProductStatus]. *)
Definition toggleProductStatus (user : User.t) (id : string) (db : DB)
  : DB * Response Product.t :=
  ownProduct user id db "Not authorized to update this product" (fun product =>
    let product' := set_isActive product (negb (Product.isActive product)) in
    (set_products db (Product_save id product' (products db)),
     Json 200 (Product_pre_save product'))).

(** [exports.deleteProduct]. *)
Definition deleteProduct (user : User.t) (id : string) (db : DB) : DB * Response unit :=
  ownProduct user id db "Not authorized to delete this product" (fun product =>
    (set_products db (delete id (products db)), Json 200 tt)).

(** [exports.updateProductRating].  After the two guards the handler calls
    [product.ratings.find]: [ratings] is not a path of [productSchema], so
    this is a TypeError for every product found. *)
Definition updateProductRating (user : User.t) (id : string) (rating : Z)
    (review : option string) (db : DB) : DB * Response Product.t :=
  if (rating <? 1) || (5 <? rating) then
    (db, Next (mkError "Rating must be between 1 and 5" 400))
  else
    match products db !! id with
    | None => (db, Next (mkError "Product not found" 404))
    | Some product => (db, Throws)
    end.

(** ** Notification model (models/Notification.js)

    For notifications a date is its time in milliseconds; the fields are
    those the functions below read or write.  An identifier in a request
    is one that casts to an ObjectId. *)

Module Notif.
Record t := mk {
  user : option string;
  type_ : string;
  title : string;
  message : string;
  orderId : option string;
  productId : option string;
  shopId : option string;
  isRead : bool;
  isSent : bool;
  sentAt : option Z;
  readAt : option Z;
  priority : string;
  email : bool;
  sms : bool;
  push : bool;
  expiresAt : option Z;
  createdAt : Z }.
End Notif.

(** [s.replace('_', ' ')]: a string pattern replaces its first occurrence
    only. *)
Fixpoint replace_first (from to : ascii) (s : string) : string :=
  match s with
  | EmptyString => EmptyString
  | String c s' =>
      if Ascii.eqb c from then String to s' else String c (replace_first from to s')
  end.

(** [s.toUpperCase()] on the letters a to z. *)
Definition upper_char (c : ascii) : ascii :=
  let n := N_of_ascii c in
  if ((97 <=? n) && (n <=? 122))%N then ascii_of_N (n - 32) else c.

Fixpoint toUpperCase (s : string) : string :=
  match s with
  | EmptyString => EmptyString
  | String c s' => String (upper_char c) (toUpperCase s')
  end.

Module Notifications.

Definition thirtyDays : Z := 30 * 24 * 60 * 60 * 1000.

Definition set_expiresAt (n : Notif.t) (e : Z) : Notif.t :=
  Notif.mk (Notif.user n) (Notif.type_ n) (Notif.title n) (Notif.message n)
    (Notif.orderId n) (Notif.productId n) (Notif.shopId n) (Notif.isRead n) (Notif.isSent n)
    (Notif.sentAt n) (Notif.readAt n) (Notif.priority n) (Notif.email n) (Notif.sms n)
    (Notif.push n) (Some e) (Notif.createdAt n).

Definition set_read (n : Notif.t) (at_ : Z) : Notif.t :=
  Notif.mk (Notif.user n) (Notif.type_ n) (Notif.title n) (Notif.message n)
    (Notif.orderId n) (Notif.productId n) (Notif.shopId n) true (Notif.isSent n)
    (Notif.sentAt n) (Some at_) (Notif.priority n) (Notif.email n) (Notif.sms n)
    (Notif.push n) (Notif.expiresAt n) (Notif.createdAt n).

Definition set_sent (n : Notif.t) (at_ : Z) : Notif.t :=
  Notif.mk (Notif.user n) (Notif.type_ n) (Notif.title n) (Notif.message n)
    (Notif.orderId n) (Notif.productId n) (Notif.shopId n) (Notif.isRead n) true
    (Some at_) (Notif.readAt n) (Notif.priority n) (Notif.email n) (Notif.sms n)
    (Notif.push n) (Notif.expiresAt n) (Notif.createdAt n).

(** [notificationSchema.pre('save')]: a notification without expiry
    expires 30 days from now. *)
Definition pre_save (now : Z) (n : Notif.t) : Notif.t :=
  match Notif.expiresAt n with
  | Some _ => n
  | None => set_expiresAt n (now + thirtyDays)
  end.

(** [doc.save()] of the document stored under [id]. *)
Definition save (now : Z) (id : string) (n : Notif.t) (coll : gmap string Notif.t)
  : gmap string Notif.t :=
  <[id := pre_save now n]> coll.

(** [notificationSchema.methods.markAsRead] and [markAsSent]. *)
Definition markAsRead (now : Z) (id : string) (n : Notif.t) (coll : gmap string Notif.t)
  : gmap string Notif.t :=
  save now id (set_read n now) coll.

Definition markAsSent (now : Z) (id : string) (n : Notif.t) (coll : gmap string Notif.t)
  : gmap string Notif.t :=
  save now id (set_sent n now) coll.

(** [statusMessages[status] || `Your order status has been updated to
    ${status}.`], for statuses that are not names of [Object.prototype]. *)
Definition statusMessage (status : string) : string :=
  if String.eqb status "confirmed" then "Your order has been confirmed and is being prepared."
  else if String.eqb status "preparing" then "Your order is being prepared and will be ready soon."
  else if String.eqb status "ready_for_pickup" then "Your order is ready for pickup!"
  else if String.eqb status "out_for_delivery"
       then "Your order is out for delivery and will reach you soon."
  else if String.eqb status "delivered" then "Your order has been delivered successfully!"
  else "Your order status has been updated to " +:+ status +:+ ".".

(** [notificationSchema.statics.createOrderStatusNotification], the
    document being stored under [newId] at time [now]. *)
Definition createOrderStatusNotification (now : Z) (newId : string)
    (userId : option string) (orderId status orderNumber : string)
    (coll : gmap string Notif.t) : gmap string Notif.t :=
  save now newId
    (Notif.mk userId "order_status"
       ("Order " +:+ orderNumber +:+ " - " +:+ toUpperCase (replace_first "_" " " status))
       (statusMessage status)
       (Some orderId) None None false false None None "medium" true false true None now)
    coll.

(** [notificationSchema.statics.createStockAlert]. *)
Definition createStockAlert (now : Z) (newId : string)
    (userId : option string) (productId shopId productName : string)
    (coll : gmap string Notif.t) : gmap string Notif.t :=
  save now newId
    (Notif.mk userId "stock_alert" "Product Back in Stock!"
       (productName +:+ " is now available in stock. Order now before it runs out again!")
       None (Some productId) (Some shopId) false false None None "high" true true true None now)
    coll.

(** The filter of [getUnreadCount]: of the user, unread, expiring after
    [now]. *)
Definition unreadFor (userId : string) (now : Z) (n : Notif.t) : bool :=
  bool_decide (Notif.user n = Some userId) && negb (Notif.isRead n) &&
  match Notif.expiresAt n with
  | Some e => now <? e
  | None => false
  end.

(** [countDocuments(filter)]. *)
Definition countDocuments (filter : Notif.t -> bool) (coll : gmap string Notif.t) : Z :=
  Z.of_nat (length (List.filter filter (snd <$> map_to_list coll))).

(** [notificationSchema.statics.getUnreadCount]. *)
Definition getUnreadCount (now : Z) (userId : string) (coll : gmap string Notif.t) : Z :=
  countDocuments (unreadFor userId now) coll.

(** [notificationSchema.statics.markAllAsRead]: [updateMany] on the
    user's unread notifications. *)
Definition markAllAsRead (now : Z) (userId : string) (coll : gmap string Notif.t)
  : gmap string Notif.t :=
  (fun n => if bool_decide (Notif.user n = Some userId) && negb (Notif.isRead n)
            then set_read n now else n) <$> coll.

(** *** Routes of routes/notifications.js *)

Inductive Answer (A : Type) :=
| Success (data : A)
| NotFound (message : string).

Arguments Success {A} data.
Arguments NotFound {A} message.

(** [findOne({ _id: id, user: userId })]. *)
Definition findOwn (id userId : string) (coll : gmap string Notif.t) : option Notif.t :=
  match coll !! id with
  | Some n => if bool_decide (Notif.user n = Some userId) then Some n else None
  | None => None
  end.

(** [PUT /:id/read]. *)
Definition putRead (now : Z) (user : User.t) (id : string) (coll : gmap string Notif.t)
  : gmap string Notif.t * Answer Notif.t :=
  match findOwn id (User.id user) coll with
  | None => (coll, NotFound "Notification not found")
  | Some notification =>
      (markAsRead now id notification coll, Success (pre_save now (set_read notification now)))
  end.

(** [PUT /mark-all-read]. *)
Definition putMarkAllRead (now : Z) (user : User.t) (coll : gmap string Notif.t)
  : gmap string Notif.t * Answer string :=
  (markAllAsRead now (User.id user) coll, Success "All notifications marked as read").

(** [DELETE /:id]. *)
Definition deleteOne (user : User.t) (id : string) (coll : gmap string Notif.t)
  : gmap string Notif.t * Answer string :=
  match findOwn id (User.id user) coll with
  | None => (coll, NotFound "Notification not found")
  | Some _ => (delete id coll, Success "Notification deleted successfully")
  end.

(** [DELETE /delete-read]: the new collection and [result.deletedCount]. *)
Definition deleteRead (user : User.t) (coll : gmap string Notif.t)
  : gmap string Notif.t * Answer Z :=
  let kept := filter (fun kv => ~ (Notif.user (snd kv) = Some (User.id user) /\
                                   Notif.isRead (snd kv) = true)) coll in
  (kept, Success (Z.of_nat (size coll) - Z.of_nat (size kept))).

(** [GET /unread-count]. *)
Definition getUnread (now : Z) (user : User.t) (coll : gmap string Notif.t) : Answer Z :=
  Success (getUnreadCount now (User.id user) coll).

End Notifications.

(** The number a truth value counts for. *)
Definition b2z (b : bool) : Z := if b then 1 else 0.

(** ** Routers (routes/*.js) and the error middleware (server.js)

    A request is a method and the segments of its path below the router's
    mount point.  A router is the list of its layers in the order of the
    source; the first layer that fits the request runs its middleware and
    then its handler, and a handler never passes the request on. *)

Inductive Method := GET | POST | PUT | DELETE.

Inductive Segment :=
| Lit (s : string)
| Param (name : string).

Inductive Middleware :=
| protect
| optionalAuth
| authorize (roles : list string).

Inductive Layer :=
| Use (mw : Middleware)
| Route (m : Method) (path : list Segment) (mws : list Middleware) (handler : string).

Definition Method_eqb (a b : Method) : bool :=
  match a, b with
  | GET, GET | POST, POST | PUT, PUT | DELETE, DELETE => true
  | _, _ => false
  end.

(** A literal segment is compared without regard to case; a parameter
    takes any segment that is not empty. *)
Fixpoint matchPath (pat : list Segment) (path : list string)
  : option (list (string * string)) :=
  match pat, path with
  | [], [] => Some []
  | Lit s :: pat', x :: path' =>
      if String.eqb (toUpperCase s) (toUpperCase x) then matchPath pat' path' else None
  | Param name :: pat', x :: path' =>
      if String.eqb x "" then None
      else match matchPath pat' path' with
           | Some params => Some ((name, x) :: params)
           | None => None
           end
  | _, _ => None
  end.

(** The handler that answers a request, with [req.params]; [passes] tells
    which middleware calls [next()] for this request.  [None]: a
    middleware answered, or no route fits. *)
Fixpoint dispatch (passes : Middleware -> bool) (layers : list Layer)
    (m : Method) (path : list string) : option (string * list (string * string)) :=
  match layers with
  | [] => None
  | Use mw :: rest => if passes mw then dispatch passes rest m path else None
  | Route m' pat mws handler :: rest =>
      match (if Method_eqb m m' then matchPath pat path else None) with
      | Some params => if forallb passes mws then Some (handler, params) else None
      | None => dispatch passes rest m path
      end
  end.

Definition owners : Middleware := authorize ["shop_owner"; "admin"].

(** routes/shops.js *)
Definition shopsRouter : list Layer :=
  [ Route GET [] [optionalAuth] "getShops";
    Route GET [Lit "search"] [optionalAuth] "searchShops";
    Route GET [Lit "category"; Param "category"] [optionalAuth] "getShopsByCategory";
    Route GET [Lit "nearby"] [optionalAuth] "getNearbyShops";
    Route GET [Param "id"] [optionalAuth] "getShop";
    Use protect;
    Route POST [] [owners] "createShop";
    Route GET [Lit "my-shops"] [owners] "getMyShops";
    Route PUT [Param "id"] [owners] "updateShop";
    Route DELETE [Param "id"] [owners] "deleteShop";
    Route PUT [Param "id"; Lit "image"] [owners] "uploadShopImage";
    Route PUT [Param "id"; Lit "status"] [owners] "toggleShopStatus";
    Route POST [Param "id"; Lit "rating"] [authorize ["customer"]] "updateShopRating" ].

(** routes/products.js *)
Definition productsRouter : list Layer :=
  [ Route GET [] [optionalAuth] "getProducts";
    Route GET [Lit "search"] [optionalAuth] "searchProducts";
    Route GET [Lit "category"; Param "category"] [optionalAuth] "getProductsByCategory";
    Route GET [Lit "shop"; Param "shopId"] [optionalAuth] "getShopProducts";
    Route GET [Param "id"] [optionalAuth] "getProduct";
    Use protect;
    Route POST [] [owners] "createProduct";
    Route PUT [Param "id"] [owners] "updateProduct";
    Route DELETE [Param "id"] [owners] "deleteProduct";
    Route PUT [Param "id"; Lit "image"] [owners] "uploadProductImage";
    Route PUT [Param "id"; Lit "stock"] [owners] "updateStock";
    Route PUT [Param "id"; Lit "status"] [owners] "toggleProductStatus";
    Route POST [Param "id"; Lit "rating"] [authorize ["customer"]] "updateProductRating" ].

(** routes/orders.js *)
Definition ordersRouter : list Layer :=
  [ Use protect;
    Route GET [] [authorize ["customer"]] "getMyOrders";
    Route POST [] [authorize ["customer"]] "createOrder";
    Route GET [Param "id"] [authorize ["customer"; "shop_owner"; "admin"]] "getOrder";
    Route PUT [Param "id"; Lit "cancel"] [authorize ["customer"]] "cancelOrder";
    Route POST [Param "id"; Lit "rate"] [authorize ["customer"]] "rateOrder";
    Route GET [Lit "shop"; Lit "orders"] [owners] "getShopOrders";
    Route GET [Lit "shop"; Lit "stats"] [owners] "getOrderStats";
    Route PUT [Param "id"; Lit "status"] [owners] "updateOrderStatus";
    Route GET [Lit "admin"; Lit "all"] [authorize ["admin"]] "getOrders" ].

(** routes/notifications.js, whose handlers are written in place and are
    named here by their route. *)
Definition notificationsRouter : list Layer :=
  [ Route GET [] [protect] "GET /";
    Route GET [Lit "unread-count"] [protect] "GET /unread-count";
    Route PUT [Param "id"; Lit "read"] [protect] "PUT /:id/read";
    Route PUT [Lit "mark-all-read"] [protect] "PUT /mark-all-read";
    Route DELETE [Param "id"] [protect] "DELETE /:id";
    Route DELETE [Lit "delete-read"] [protect] "DELETE /delete-read" ].

(** routes/auth.js *)
Definition authRouter : list Layer :=
  [ Route POST [Lit "register"] [] "register";
    Route POST [Lit "login"] [] "login";
    Route GET [Lit "logout"] [] "logout";
    Route POST [Lit "forgotpassword"] [] "forgotPassword";
    Route PUT [Lit "resetpassword"; Param "resettoken"] [] "resetPassword";
    Route GET [Lit "verify"; Param "verificationtoken"] [] "verifyEmail";
    Route POST [Lit "resend-verification"] [] "resendVerification";
    Use protect;
    Route GET [Lit "me"] [] "getMe";
    Route PUT [Lit "updatedetails"] [] "updateDetails";
    Route PUT [Lit "updatepassword"] [] "updatePassword" ].

(** The path that fits a pattern with every parameter set to [x]. *)
Definition samplePath (x : string) (pat : list Segment) : list string :=
  (fun s => match s with Lit s => s | Param _ => x end) <$> pat.

(** Every route of a router but those that lead to the handlers in [dead]
    answers the sample request of its own pattern. *)
Definition routes_answer (x : string) (dead : list string) (router : list Layer) : Prop :=
  Forall (fun layer =>
            match layer with
            | Use _ => True
            | Route m pat _ handler =>
                handler ∈ dead \/
                fst <$> dispatch (fun _ => true) router m (samplePath x pat) = Some handler
            end) router.

(** server.js, the error-handling middleware: whatever the error handed
    to [next], the answer has status 500 and this message. *)
Definition errorMiddleware (e : ErrorResponse) : Z * string :=
  (500, "Something went wrong!").

(** The status a response is sent with: by the handler itself, or by the
    error middleware for an error handed to [next]. *)
Definition statusSent {A} (r : Response A) : option Z :=
  match r with
  | Json code _ => Some code
  | Next e => Some (fst (errorMiddleware e))
  | Throws => None
  end.

(** ** Example data

    One shop selling tea at 120 with three units in stock, a second shop,
    a customer and a shop owner; the clock reads 2 November 2026 (months
    count from 0). *)

Definition day : Date.t := Date.mk 2026 10 2 0.

Definition tea : Product.t := Product.mk "s1" "Tea" 120 3 true true.

Definition db0 : DB :=
  mkDB {[ "p1" := tea ]} ∅
       (<["s1" := Shop.mk "owner1" 0 0]> {[ "s2" := Shop.mk "owner2" 0 0 ]}) [].

Definition alice : User.t := User.mk "u1" None (Some "12 Hill Road").

Definition owner1 : User.t := User.mk "owner1" (Some "s1") None.

Definition env1 : Env := mkEnv day "o1".

Definition env2 : Env := mkEnv day "o2".

Definition env3 : Env := mkEnv day "o3".

(** A stored order of customer [u1] at shop [s1]: two units of tea, not
    yet confirmed. *)
Definition anOrder : Order.t :=
  Order.mk "ORD2611020001" (Some "u1") (Some "s1") [OrderItem.mk "p1" 2 120 240] (Some 240) 50
    290 "pending" (Some "cod") (Some "home_delivery") None None None None None day.

(** A day on which [k] orders are already stored. *)
Definition busyDay (k : N) : gmap string Order.t :=
  list_to_map ((fun i => (Number_toString (N.of_nat i), anOrder)) <$> seq 0 (N.to_nat k)).

(** A database in which that order is stored under [o1] and holds two of
    the three units of tea: one unit is left in stock. *)
Definition db_o1 : DB :=
  mkDB {[ "p1" := Product.mk "s1" "Tea" 120 1 true true ]} {[ "o1" := anOrder ]}
       (shops db0) [].

(** The same order once delivered, not rated yet, and the database that
    holds it. *)
Definition aDelivered : Order.t :=
  Order.mk "ORD2611020001" (Some "u1") (Some "s1") [OrderItem.mk "p1" 2 120 240] (Some 240) 50
    290 "delivered" (Some "cod") (Some "home_delivery") None None (Some day) None None day.

Definition db_delivered : DB :=
  mkDB (products db_o1) {[ "o1" := aDelivered ]} (shops db0) [].

(** One unit of tea, by its plain identifier or by an object. *)
Definition body_one (ref : ProductRef) : CreateBody :=
  mkBody (Some [ReqItem.mk ref 1]) None None None.

(** Two units of tea, the product given as an object naming its shop. *)
Definition body_tea (shop : option string) : CreateBody :=
  mkBody (Some [ReqItem.mk (RefObj "p1" shop) 2]) None None (Some "cod").

(** ** The reservation step (createOrder, loop body) *)

Lemma reserve_inl item ps ps' e :
  reserve item ps = (ps', inl e) -> ps' = ps.
Proof.
  unfold reserve. intros H.
  destruct (ps !! _) as [p|]; [|congruence].
  destruct (negb _); [congruence|].
  destruct (_ <? _); congruence.
Qed.

Lemma reserve_inr item ps ps' line :
  reserve item ps = (ps', inr line) ->
  exists p,
    ps !! castObjectId (ReqItem.product item) = Some p /\
    Product.isActive p = true /\
    ReqItem.quantity item <= Product.stock p /\
    ps' = Product_save (castObjectId (ReqItem.product item))
            (set_stock p (Product.stock p - ReqItem.quantity item)) ps /\
    line = PushedItem.mk (ReqItem.product item) (ReqItem.quantity item)
             (Product.price p) (Product.price p * ReqItem.quantity item).
Proof.
  unfold reserve. intros H.
  destruct (ps !! _) as [p|] eqn:Hp; [|congruence].
  destruct (Product.isActive p) eqn:Ha; simpl in H; [|congruence].
  destruct (Product.stock p <? ReqItem.quantity item) eqn:Hs; [congruence|].
  apply Z.ltb_ge in Hs. inversion H; subst. exists p. auto.
Qed.

Lemma stockOf_save ps id p k :
  stockOf (Product_save id p ps) k =
  if decide (id = k) then Some (Product.stock p) else stockOf ps k.
Proof.
  unfold stockOf, Product_save. rewrite lookup_insert.
  destruct (decide (id = k)); reflexivity.
Qed.

Lemma reserve_stock item ps ps' line k :
  reserve item ps = (ps', inr line) ->
  stockOf ps' k =
  (fun s => s - (if decide (castObjectId (ReqItem.product item) = k)
                 then ReqItem.quantity item else 0)) <$> stockOf ps k.
Proof.
  intros H. apply reserve_inr in H as (p & Hp & _ & _ & -> & _).
  rewrite stockOf_save. destruct (decide _) as [Heq|Hne].
  - subst k. unfold stockOf. rewrite Hp. reflexivity.
  - destruct (stockOf ps k); simpl; f_equal; lia.
Qed.

(** ** Order.create *)

(** No object of [createOrder] passes the validation of [orderSchema]: it
    has no [customer], no [subtotal], no [deliveryType], and its order
    number is only set by the hook that runs after the validation. *)
Lemma Order_create_rejects env doc coll : Order_create env doc coll = None.
Proof. reflexivity. Qed.

(** The two ways [createOrder] ends: at the guard on [items], or after the
    loop, with the error of the loop or with the exception of
    [Order.create]. *)
Lemma createOrder_inv env user body db :
  (createOrder env user body db = (db, Next ValidationError_items) /\
   (body_items body = None \/ body_items body = Some [])) \/
  (exists it items ps res,
     body_items body = Some (it :: items) /\
     reserveItems (it :: items) (products db) 0 [] = (ps, res) /\
     createOrder env user body db
     = (set_products db ps, match res with inl e => Next e | inr _ => Throws end)).
Proof.
  unfold createOrder. destruct (body_items body) as [[|it items]|] eqn:Hb.
  - left. auto.
  - right. exists it, items.
    destruct (reserveItems (it :: items) (products db) 0 []) as [ps res] eqn:Hr.
    exists ps, res. split; [reflexivity|]. split; [reflexivity|].
    destruct res as [e|[t lines]]; [reflexivity|].
    destruct lines as [|first more]; [reflexivity|].
    cbv zeta. rewrite Order_create_rejects. reflexivity.
  - left. auto.
Qed.

(** The products after [createOrder] are those the loop leaves. *)
Lemma createOrder_products env user body db it items :
  body_items body = Some (it :: items) ->
  products (fst (createOrder env user body db)) =
  fst (reserveItems (it :: items) (products db) 0 []).
Proof.
  intros Hb.
  destruct (createOrder_inv env user body db) as [[_ [H|H]]|(it' & items' & ps & res & Hb' & Hr & ->)];
    [congruence..|].
  rewrite Hb in Hb'. injection Hb' as <- <-. rewrite Hr. reflexivity.
Qed.

(** C2. A reservation of [q] units of a stored, active product with at
    least [q] in stock takes exactly [q] off its stock, recomputes
    [isAvailable] as [stock > 0], leaves every other product alone and
    returns the unit price; otherwise it fails with NotFound, Unavailable
    or InsufficientStock and changes nothing.  An order creation for the
    one item leaves the products as this reservation does. *)
Theorem reserve_decrements_stock (item : ReqItem.t) (ps : gmap string Product.t) :
  let ref := ReqItem.product item in
  let pid := castObjectId ref in
  let q := ReqItem.quantity item in
  (forall p, ps !! pid = Some p -> Product.isActive p = true -> q <= Product.stock p ->
     exists p',
       fst (reserve item ps) !! pid = Some p' /\
       Product.stock p' = Product.stock p - q /\
       Product.isAvailable p' = bool_decide (0 < Product.stock p') /\
       snd (reserve item ps) = inr (PushedItem.mk ref q (Product.price p) (Product.price p * q)) /\
       (forall k, k <> pid -> fst (reserve item ps) !! k = ps !! k))
  /\ (ps !! pid = None -> reserve item ps = (ps, inl (NotFound_product ref)))
  /\ (forall p, ps !! pid = Some p -> Product.isActive p = false ->
        reserve item ps = (ps, inl (Unavailable p)))
  /\ (forall p, ps !! pid = Some p -> Product.isActive p = true -> Product.stock p < q ->
        reserve item ps = (ps, inl (InsufficientStock p)))
  /\ (forall env user body db, body_items body = Some [item] -> products db = ps ->
        products (fst (createOrder env user body db)) = fst (reserve item ps)).
Proof.
  intros ref pid q. subst ref pid q.
  split; [|split; [|split; [|split]]];
    [| | | | intros env user body db Hb <-;
             rewrite (createOrder_products _ _ _ _ _ _ Hb); simpl;
             destruct (reserve item (products db)) as [ps' [e|line]]; reflexivity ].
  all: unfold reserve.
  - intros p Hp Ha Hq. rewrite Hp, Ha. simpl.
    destruct (Product.stock p <? ReqItem.quantity item) eqn:Hs; [apply Z.ltb_lt in Hs; lia|].
    simpl. unfold Product_save. rewrite lookup_insert_eq.
    eexists. split; [reflexivity|]. simpl. split; [reflexivity|]. split; [|split; [reflexivity|]].
    + destruct (0 <? Product.stock p - ReqItem.quantity item) eqn:Hpos.
      * apply Z.ltb_lt in Hpos. symmetry. apply bool_decide_eq_true. exact Hpos.
      * apply Z.ltb_ge in Hpos. symmetry. apply bool_decide_eq_false. lia.
    + intros k Hk. apply lookup_insert_ne. congruence.
  - intros ->. reflexivity.
  - intros p -> ->. reflexivity.
  - intros p -> -> Hlt. simpl. apply Z.ltb_lt in Hlt. rewrite Hlt. reflexivity.
Qed.

(** Reserving all three units of tea leaves none, and the product
    unavailable. *)
Lemma reserve_decrements_stock_witness :
  exists p',
    fst (reserve (ReqItem.mk (RefId "p1") 3)
           {[ "p1" := Product.mk "s1" "Tea" 120 3 true true ]}) !! "p1" = Some p' /\
    Product.stock p' = 0 /\ Product.isAvailable p' = false.
Proof.
  destruct (reserve_decrements_stock (ReqItem.mk (RefId "p1") 3)
              {[ "p1" := Product.mk "s1" "Tea" 120 3 true true ]}) as [H _].
  destruct (H (Product.mk "s1" "Tea" 120 3 true true)) as (p' & H1 & H2 & H3 & _).
  - reflexivity.
  - reflexivity.
  - simpl. lia.
  - exists p'. split; [exact H1|]. split; [exact H2|]. rewrite H3, H2. reflexivity.
Defined.

(** ** The reservation loop *)

Lemma reserve_price item ps ps' r k :
  reserve item ps = (ps', r) -> priceOf ps' k = priceOf ps k.
Proof.
  destruct r as [e|line]; intros H.
  - apply reserve_inl in H. subst. reflexivity.
  - apply reserve_inr in H as (p & Hp & _ & _ & -> & _).
    unfold priceOf, Product_save. rewrite lookup_insert.
    destruct (decide _) as [Heq|Hne]; [|reflexivity].
    subst k. rewrite Hp. reflexivity.
Qed.

Lemma subtotal_app l1 l2 : subtotal (l1 ++ l2) = subtotal l1 + subtotal l2.
Proof. induction l1 as [|x l1 IH]; simpl; lia. Qed.

Lemma reserveItems_inr items : forall ps t acc ps' t' acc',
  reserveItems items ps t acc = (ps', inr (t', acc')) ->
  exists lines,
    acc' = acc ++ lines /\
    Forall2 (line_of ps) items lines /\
    t' = t + subtotal (castItem <$> lines) /\
    (forall k, stockOf ps' k = (fun s => s - quantityOf k items) <$> stockOf ps k) /\
    (forall k, priceOf ps' k = priceOf ps k).
Proof.
  induction items as [|it items IH]; intros ps t acc ps' t' acc' H; simpl in H.
  - inversion H; subst. exists []. rewrite app_nil_r. repeat split; auto.
    + simpl. lia.
    + intros k. simpl. destruct (stockOf ps' k); simpl; f_equal; lia.
  - destruct (reserve it ps) as [ps1 [e|line]] eqn:Hr; [congruence|].
    apply IH in H as (lines & -> & HF & -> & Hst & Hpr).
    pose proof (fun k => reserve_stock _ _ _ _ k Hr) as Hst1.
    pose proof (fun k => reserve_price _ _ _ _ k Hr) as Hpr1.
    apply reserve_inr in Hr as (p & Hp & _ & _ & _ & ->).
    exists (PushedItem.mk (ReqItem.product it) (ReqItem.quantity it)
              (Product.price p) (Product.price p * ReqItem.quantity it) :: lines).
    repeat split.
    + rewrite <- app_assoc. reflexivity.
    + constructor.
      * unfold line_of, priceOf. simpl. rewrite Hp. auto.
      * eapply Forall2_impl; [exact HF|].
        intros x y (H1 & H2 & H3 & H4). unfold line_of. rewrite <- Hpr1. auto.
    + rewrite fmap_cons. cbn [subtotal castItem OrderItem.total PushedItem.total]. lia.
    + intros k. rewrite Hst, Hst1. simpl.
      destruct (stockOf ps k); simpl; f_equal; lia.
    + intros k. rewrite Hpr. apply Hpr1.
Qed.

Lemma reserveItems_app_fail pre : forall ps t acc ps1 r bad rest e ps2,
  reserveItems pre ps t acc = (ps1, inr r) ->
  reserve bad ps1 = (ps2, inl e) ->
  reserveItems (pre ++ bad :: rest) ps t acc = (ps1, inl e).
Proof.
  induction pre as [|it pre IH]; intros ps t acc ps1 r bad rest e ps2 Hpre Hbad; simpl in *.
  - inversion Hpre; subst. rewrite Hbad. apply reserve_inl in Hbad. subst. reflexivity.
  - destruct (reserve it ps) as [ps' [e'|line]]; [congruence|].
    eapply IH; eauto.
Qed.

Lemma reserveItems_nonempty it items ps t ps' t' acc' :
  reserveItems (it :: items) ps t [] = (ps', inr (t', acc')) ->
  exists first more, acc' = first :: more /\ PushedItem.product first = ReqItem.product it.
Proof.
  intros H. apply reserveItems_inr in H as (lines & -> & HF & _).
  inversion HF as [|? line ? more (H1 & _) _]; subst. simpl. eauto.
Qed.

(** ** createOrder *)

(** C10. A request whose [items] is absent or empty is answered with the
    400 error 'Please add items to your order' and leaves the whole
    database (products, orders, shops, notifications) as it was. *)
Theorem createOrder_without_items (env : Env) (user : User.t) (body : CreateBody) (db : DB) :
  body_items body = None \/ body_items body = Some [] ->
  createOrder env user body db = (db, Next (mkError "Please add items to your order" 400)).
Proof.
  unfold createOrder. intros [-> | ->]; reflexivity.
Qed.

(** An empty list of items, on a database with one product. *)
Lemma createOrder_without_items_witness :
  let db := mkDB {[ "p1" := Product.mk "s1" "Tea" 120 3 true true ]} ∅ ∅ [] in
  createOrder (mkEnv (Date.mk 2026 10 2 0) "o1") (User.mk "u1" None None)
    (mkBody (Some []) None None None) db
  = (db, Next (mkError "Please add items to your order" 400)).
Proof.
  intros db. apply createOrder_without_items. right. reflexivity.
Defined.

(** C5. When the items before a failing one were all reserved, the request
    is answered with the failing item's error while the products stay as
    those reservations left them: every product's stock is its stock
    before the request minus the units of the earlier items, and no order
    is stored. *)
Theorem createOrder_no_rollback (env : Env) (user : User.t) (body : CreateBody) (db : DB)
    (pre rest : list ReqItem.t) (bad : ReqItem.t)
    (ps1 ps2 : gmap string Product.t) (r : Z * list PushedItem.t) (e : ErrorResponse) :
  body_items body = Some (pre ++ bad :: rest) ->
  reserveItems pre (products db) 0 [] = (ps1, inr r) ->
  reserve bad ps1 = (ps2, inl e) ->
  createOrder env user body db = (set_products db ps1, Next e) /\
  (forall k, stockOf ps1 k = (fun s => s - quantityOf k pre) <$> stockOf (products db) k).
Proof.
  intros Hitems Hpre Hbad. split.
  - unfold createOrder. rewrite Hitems.
    rewrite (reserveItems_app_fail _ _ _ _ _ _ _ rest _ _ Hpre Hbad).
    destruct pre; reflexivity.
  - destruct r as [t acc]. apply reserveItems_inr in Hpre as (_ & _ & _ & _ & H & _). exact H.
Qed.

(** Two units of tea, then a product that is not stored: the request fails
    with NotFound and the stock of tea stays at 1. *)
Lemma createOrder_no_rollback_witness :
  let db := mkDB {[ "p1" := Product.mk "s1" "Tea" 120 3 true true ]} ∅ ∅ [] in
  let body := mkBody (Some [ReqItem.mk (RefId "p1") 2; ReqItem.mk (RefId "p2") 1]) None None None in
  let db' := fst (createOrder (mkEnv (Date.mk 2026 10 2 0) "o1") (User.mk "u1" None None) body db) in
  snd (createOrder (mkEnv (Date.mk 2026 10 2 0) "o1") (User.mk "u1" None None) body db)
    = Next (NotFound_product (RefId "p2")) /\
  stockOf (products db) "p1" = Some 3 /\
  stockOf (products db') "p1" = Some 1 /\
  orders db' = ∅.
Proof.
  intros db body db'.
  destruct (createOrder_no_rollback (mkEnv (Date.mk 2026 10 2 0) "o1") (User.mk "u1" None None)
              body db [ReqItem.mk (RefId "p1") 2] [] (ReqItem.mk (RefId "p2") 1)
              (fst (reserveItems [ReqItem.mk (RefId "p1") 2] (products db) 0 []))
              (fst (reserveItems [ReqItem.mk (RefId "p1") 2] (products db) 0 []))
              (240, [PushedItem.mk (RefId "p1") 2 120 240])
              (NotFound_product (RefId "p2"))) as [H1 H2].
  - reflexivity.
  - reflexivity.
  - reflexivity.
  - subst db'. rewrite H1. simpl. split; [reflexivity|]. split; [reflexivity|].
    split; [|reflexivity]. rewrite H2. reflexivity.
Defined.

Lemma lines_priced ps items lines :
  Forall2 (line_of ps) items lines ->
  Forall (fun it => OrderItem.total it = OrderItem.price it * OrderItem.quantity it /\
                    priceOf ps (OrderItem.product it) = Some (OrderItem.price it))
         (castItem <$> lines).
Proof.
  induction 1 as [|it line items lines (H1 & H2 & H3 & H4) _ IH]; [constructor|].
  rewrite fmap_cons. constructor; [|exact IH].
  unfold castItem. simpl. rewrite H1. auto.
Qed.

(** C1. For a request whose items are all reserved, the object handed to
    [Order.create] has [total = subtotal + deliveryFee], the subtotal
    being the sum of the line totals, every line total the product's unit
    price at the time of the request times the quantity, and the fee 0
    exactly when the subtotal exceeds 500 and 50 otherwise.  But
    [Order.create] rejects that object, which lacks paths the schema
    requires: the handler throws, and no order is persisted. *)
Theorem createOrder_total_not_persisted (env : Env) (user : User.t) (body : CreateBody)
    (db : DB) (it : ReqItem.t) (items : list ReqItem.t) (ps : gmap string Product.t)
    (sub : Z) (lines : list PushedItem.t) :
  body_items body = Some (it :: items) ->
  reserveItems (it :: items) (products db) 0 [] = (ps, inr (sub, lines)) ->
  exists first more,
    lines = first :: more /\
    let fee := deliveryFeeFor sub in
    let doc := orderDocument user body lines first (sub + fee) fee in
    sub = subtotal (castItem <$> doc_items doc) /\
    doc_total doc = subtotal (castItem <$> doc_items doc) + doc_deliveryFee doc /\
    (doc_deliveryFee doc = 0 <-> 500 < sub) /\
    (sub <= 500 -> doc_deliveryFee doc = 50) /\
    Forall (fun l => OrderItem.total l = OrderItem.price l * OrderItem.quantity l /\
                     priceOf (products db) (OrderItem.product l) = Some (OrderItem.price l))
           (castItem <$> doc_items doc) /\
    Order_create env doc (orders db) = None /\
    createOrder env user body db = (set_products db ps, Throws) /\
    orders (fst (createOrder env user body db)) = orders db.
Proof.
  intros Hb Hr.
  destruct (reserveItems_nonempty _ _ _ _ _ _ _ Hr) as (first & more & -> & _).
  exists first, more. split; [reflexivity|]. cbv zeta.
  assert (Hc : createOrder env user body db = (set_products db ps, Throws)).
  { destruct (createOrder_inv env user body db)
      as [[_ [H|H]]|(it' & items' & ps' & res & Hb' & Hr' & ->)]; [congruence..|].
    rewrite Hb in Hb'. injection Hb' as <- <-. rewrite Hr in Hr'.
    injection Hr' as <- <-. reflexivity. }
  apply reserveItems_inr in Hr as (lines & Hlines & HF & Ht & _ & _).
  simpl in Hlines. subst lines. rewrite Z.add_0_l in Ht.
  cbn [orderDocument doc_items doc_total doc_deliveryFee]. unfold deliveryFeeFor.
  split; [exact Ht|]. split; [lia|].
  destruct (500 <? sub) eqn:Hc5; [apply Z.ltb_lt in Hc5 | apply Z.ltb_ge in Hc5].
  - repeat split; try lia.
    + apply lines_priced with (items := it :: items). exact HF.
    + exact Hc.
    + rewrite Hc. reflexivity.
  - repeat split; try lia.
    + apply lines_priced with (items := it :: items). exact HF.
    + exact Hc.
    + rewrite Hc. reflexivity.
Qed.

(** Two units of tea at 120: the object carries subtotal 240, fee 50 and
    total 290; one unit of stock is left, the handler throws and no order
    is stored. *)
Lemma createOrder_total_not_persisted_witness :
  let body := mkBody (Some [ReqItem.mk (RefId "p1") 2]) None None None in
  let lines := [PushedItem.mk (RefId "p1") 2 120 240] in
  doc_total (orderDocument alice body lines (PushedItem.mk (RefId "p1") 2 120 240) 290 50)
  = 240 + 50 /\
  snd (createOrder env1 alice body db0) = Throws /\
  orders (fst (createOrder env1 alice body db0)) = ∅ /\
  stockOf (products (fst (createOrder env1 alice body db0))) "p1" = Some 1.
Proof.
  intros body lines.
  destruct (createOrder_total_not_persisted env1 alice body db0 (ReqItem.mk (RefId "p1") 2) []
              (fst (reserveItems [ReqItem.mk (RefId "p1") 2] (products db0) 0 []))
              240 lines)
    as (first & more & Hl & _ & _ & _ & _ & _ & _ & Hc & Ho).
  - reflexivity.
  - reflexivity.
  - split; [reflexivity|]. rewrite Hc. split; [reflexivity|]. split; [reflexivity|].
    reflexivity.
Defined.

(** ** The handlers on a stored order *)

Lemma cancelOrder_inv env user id db :
  fst (cancelOrder env user id db) = db /\
  (orders db !! id = None /\ snd (cancelOrder env user id db) = Next NotFound_order \/
   (exists o, orders db !! id = Some o) /\ snd (cancelOrder env user id db) = Throws).
Proof.
  unfold cancelOrder. destruct (orders db !! id) as [o|]; simpl; eauto.
Qed.

Lemma rateOrder_inv env user id rating review db :
  fst (rateOrder env user id rating review db) = db /\
  ((rating < 1 \/ 5 < rating) /\
   snd (rateOrder env user id rating review db)
   = Next (mkError "Rating must be between 1 and 5" 400) \/
   1 <= rating <= 5 /\ orders db !! id = None /\
   snd (rateOrder env user id rating review db) = Next NotFound_order \/
   1 <= rating <= 5 /\ (exists o, orders db !! id = Some o) /\
   snd (rateOrder env user id rating review db) = Throws).
Proof.
  unfold rateOrder.
  destruct (rating <? 1) eqn:H1.
  { apply Z.ltb_lt in H1. simpl. split; [reflexivity|]. left. split; [lia|reflexivity]. }
  destruct (5 <? rating) eqn:H5.
  { apply Z.ltb_lt in H5. simpl. split; [reflexivity|]. left. split; [lia|reflexivity]. }
  apply Z.ltb_ge in H1, H5. simpl.
  destruct (orders db !! id) as [o|]; simpl; (split; [reflexivity|]); right.
  - right. split; [lia|]. split; [exists o; reflexivity | reflexivity].
  - left. split; [lia|]. split; reflexivity.
Qed.

Lemma updateOrderStatus_inv env user id status db :
  fst (updateOrderStatus env user id status db) = db /\
  (snd (updateOrderStatus env user id status db) = Next NotFound_order \/
   snd (updateOrderStatus env user id status db) = Next Forbidden_update \/
   snd (updateOrderStatus env user id status db) = Throws).
Proof.
  unfold updateOrderStatus. destruct (orders db !! id) as [o|]; [|auto].
  destruct (Order.shop o), (User.shop user); auto.
  destruct (negb _); auto.
Qed.

(** C3. [cancelOrder] restores no stock: for every request it leaves the
    database as it was, answering 'Order not found' or throwing.  For the
    pending order of the example, which holds two units of tea and is
    cancelled by its customer, it throws, and the stock of tea stays 1
    where the claim has it return to 3. *)
Theorem cancelOrder_restores_nothing :
  (forall env user id db,
     fst (cancelOrder env user id db) = db /\
     (snd (cancelOrder env user id db) = Next NotFound_order \/
      snd (cancelOrder env user id db) = Throws)) /\
  (forall env user id db o,
     orders db !! id = Some o -> cancelOrder env user id db = (db, Throws)) /\
  orders db_o1 !! "o1" = Some anOrder /\
  Order.customer anOrder = Some (User.id alice) /\
  Order.status anOrder = "pending" /\
  Order.items anOrder = [OrderItem.mk "p1" 2 120 240] /\
  cancelOrder env2 alice "o1" db_o1 = (db_o1, Throws) /\
  stockOf (products (fst (cancelOrder env2 alice "o1" db_o1))) "p1" = Some 1.
Proof.
  split; [|split].
  - intros env user id db. destruct (cancelOrder_inv env user id db) as [H [[_ H']|[_ H']]]; auto.
  - intros env user id db o Ho. unfold cancelOrder. rewrite Ho. reflexivity.
  - repeat split.
Qed.

(** C7. The shop in the object handed to [Order.create] is read off the
    request's [item.product], not off the product found in the loop: tea
    belongs to shop [s1], but for a request that names tea by its
    identifier the object has no shop, and for one that names it by an
    object it has the shop that object claims ([s2]).  Either way
    [Order.create] rejects the object and no order is persisted. *)
Theorem createOrder_shop_not_from_product :
  let byId := mkBody (Some [ReqItem.mk (RefId "p1") 2]) None None None in
  let byObject := body_tea (Some "s2") in
  let lineOf ref := PushedItem.mk ref 2 120 240 in
  Product.shop <$> products db0 !! "p1" = Some "s1" /\
  (forall user body lines first total fee,
     doc_shop (orderDocument user body lines first total fee)
     = ref_shop (PushedItem.product first)) /\
  snd (reserveItems [ReqItem.mk (RefId "p1") 2] (products db0) 0 [])
  = inr (240, [lineOf (RefId "p1")]) /\
  doc_shop (orderDocument alice byId [lineOf (RefId "p1")] (lineOf (RefId "p1")) 290 50)
  = None /\
  snd (reserveItems [ReqItem.mk (RefObj "p1" (Some "s2")) 2] (products db0) 0 [])
  = inr (240, [lineOf (RefObj "p1" (Some "s2"))]) /\
  doc_shop (orderDocument alice byObject [lineOf (RefObj "p1" (Some "s2"))]
              (lineOf (RefObj "p1" (Some "s2"))) 290 50)
  = Some "s2" /\
  snd (createOrder env1 alice byId db0) = Throws /\
  snd (createOrder env1 alice byObject db0) = Throws /\
  orders (fst (createOrder env1 alice byId db0)) = ∅ /\
  orders (fst (createOrder env1 alice byObject db0)) = ∅.
Proof.
  intros byId byObject lineOf. repeat split.
Qed.

(** C6. [updateOrderStatus] answers 'Order not found' for a missing order
    and 'Not authorized' for an order of another shop, as the claim says;
    for an order of the caller's shop it throws and stores nothing.  The
    owner of shop [s1] marking the pending order of the example delivered
    gets the exception, and the order stays stored as it was: pending,
    and without delivery time. *)
Theorem updateOrderStatus_delivered_leaves_delivery_time_unset :
  (forall env user id status db,
     fst (updateOrderStatus env user id status db) = db /\
     forall code o, snd (updateOrderStatus env user id status db) <> Json code o) /\
  (forall env user id status db,
     orders db !! id = None ->
     updateOrderStatus env user id status db = (db, Next NotFound_order)) /\
  (forall env user id status db o s us,
     orders db !! id = Some o -> Order.shop o = Some s -> User.shop user = Some us ->
     s <> us ->
     updateOrderStatus env user id status db = (db, Next Forbidden_update)) /\
  (forall env user id status db o s,
     orders db !! id = Some o -> Order.shop o = Some s -> User.shop user = Some s ->
     updateOrderStatus env user id status db = (db, Throws)) /\
  Order.shop anOrder = User.shop owner1 /\
  updateOrderStatus env2 owner1 "o1" "delivered" db_o1 = (db_o1, Throws) /\
  (exists o,
     orders (fst (updateOrderStatus env2 owner1 "o1" "delivered" db_o1)) !! "o1" = Some o /\
     Order.status o = "pending" /\ Order.actualDeliveryTime o = None).
Proof.
  split; [|split; [|split; [|split]]].
  - intros env user id status db.
    destruct (updateOrderStatus_inv env user id status db) as [H [H'|[H'|H']]];
      (split; [exact H|]); intros code o; rewrite H'; discriminate.
  - intros env user id status db Ho. unfold updateOrderStatus. rewrite Ho. reflexivity.
  - intros env user id status db o s us Ho Hs Hu Hne. unfold updateOrderStatus.
    rewrite Ho, Hs, Hu. apply String.eqb_neq in Hne. rewrite Hne. reflexivity.
  - intros env user id status db o s Ho Hs Hu. unfold updateOrderStatus.
    rewrite Ho, Hs, Hu, String.eqb_refl. reflexivity.
  - split; [reflexivity|]. split; [reflexivity|]. exists anOrder. repeat split.
Qed.

(** C4. Of the guards of [rateOrder] only the first two are ever reached:
    a rating outside 1 to 5 and a missing order are refused as the claim
    says, but for every order found the handler throws, so it never
    answers 'Not authorized', 'Order must be delivered before rating' or
    'Order already rated', and it never succeeds.  The customer rating the
    pending order of the example 4, and another caller doing so, both get
    the exception. *)
Theorem rateOrder_guards_unreached :
  (forall env user id rating review db,
     fst (rateOrder env user id rating review db) = db /\
     (forall code o, snd (rateOrder env user id rating review db) <> Json code o) /\
     snd (rateOrder env user id rating review db) <> Next Forbidden_rate /\
     snd (rateOrder env user id rating review db) <> Next InvalidTransition_rate /\
     snd (rateOrder env user id rating review db) <> Next AlreadyRated) /\
  (forall env user id rating review db,
     1 <= rating <= 5 -> orders db !! id = None ->
     rateOrder env user id rating review db = (db, Next NotFound_order)) /\
  (forall env user id rating review db o,
     1 <= rating <= 5 -> orders db !! id = Some o ->
     rateOrder env user id rating review db = (db, Throws)) /\
  Order.status anOrder = "pending" /\
  rateOrder env2 alice "o1" 4 None db_o1 = (db_o1, Throws) /\
  rateOrder env2 owner1 "o1" 4 None db_o1 = (db_o1, Throws).
Proof.
  split; [|split; [|split]].
  - intros env user id rating review db.
    destruct (rateOrder_inv env user id rating review db)
      as [H [[_ H']|[(_ & _ & H')|(_ & _ & H')]]];
      (split; [exact H|]); rewrite H'; repeat split; try discriminate;
      intros code o; discriminate.
  - intros env user id rating review db Hr Ho.
    destruct (rateOrder_inv env user id rating review db)
      as [H [[Hbad _]|[(_ & _ & H')|(_ & [o Ho'] & _)]]]; [lia| |congruence].
    rewrite (surjective_pairing (rateOrder env user id rating review db)), H, H'. reflexivity.
  - intros env user id rating review db o Hr Ho.
    destruct (rateOrder_inv env user id rating review db)
      as [H [[Hbad _]|[(_ & Ho' & _)|(_ & _ & H')]]]; [lia|congruence|].
    rewrite (surjective_pairing (rateOrder env user id rating review db)), H, H'. reflexivity.
  - repeat split.
Qed.

(** C8. [rateOrder] never computes a shop's rating again: for every
    request the shops and the orders are stored as they were.  The
    customer rating the delivered, unrated order of the example 4 gets the
    exception; the order stays unrated and shop [s1] keeps the rating it
    had. *)
Theorem rateOrder_never_recomputes :
  (forall env user id rating review db,
     shops (fst (rateOrder env user id rating review db)) = shops db /\
     orders (fst (rateOrder env user id rating review db)) = orders db) /\
  orders db_delivered !! "o1" = Some aDelivered /\
  Order.customer aDelivered = Some (User.id alice) /\
  Order.status aDelivered = "delivered" /\
  Order.rating aDelivered = None /\
  Order.shop aDelivered = Some "s1" /\
  rateOrder env2 alice "o1" 4 (Some "fine") db_delivered = (db_delivered, Throws) /\
  shops (fst (rateOrder env2 alice "o1" 4 (Some "fine") db_delivered)) !! "s1"
  = Some (Shop.mk "owner1" 0 0).
Proof.
  split.
  - intros env user id rating review db.
    rewrite (proj1 (rateOrder_inv env user id rating review db)). auto.
  - repeat split.
Qed.

(** ** Decimal strings *)

Section DecimalStrings.

Local Open Scope N_scope.

Lemma digitVal_digitChar d : d < 10 -> digitVal (digitChar d) = d.
Proof.
  intros H. unfold digitVal, digitChar. rewrite N_ascii_embedding by lia. lia.
Qed.

Lemma div10_lt_pow n f :
  10 <= n -> n < 2 ^ N.of_nat f ->
  exists f', f = S f' /\ n / 10 < 2 ^ N.of_nat f'.
Proof.
  intros Hn Hlt. destruct f as [|f'].
  - simpl in Hlt. lia.
  - exists f'. split; [reflexivity|].
    rewrite Nat2N.inj_succ, N.pow_succ_r' in Hlt.
    apply N.Div0.div_lt_upper_bound. lia.
Qed.

Lemma toDigits_fuel f1 : forall f2 n,
  n < 2 ^ N.of_nat f1 -> n < 2 ^ N.of_nat f2 ->
  toDigits (S f1) n = toDigits (S f2) n.
Proof.
  induction f1 as [|f1 IH]; intros f2 n H1 H2.
  - simpl in H1. assert (n = 0) by lia. subst n. reflexivity.
  - cbn [toDigits]. destruct (n <? 10) eqn:Hn; [reflexivity|].
    apply N.ltb_ge in Hn.
    destruct (div10_lt_pow n (S f1) Hn H1) as (g1 & Hg1 & Hd1).
    destruct (div10_lt_pow n f2 Hn H2) as (g2 & Hg2 & Hd2).
    injection Hg1 as <-. subst f2.
    f_equal. apply IH; assumption.
Qed.

Lemma lt_pow_log2 n : n < 2 ^ N.of_nat (S (N.to_nat (N.log2 n))).
Proof.
  rewrite Nat2N.inj_succ, N2Nat.id.
  destruct (N.eq_dec n 0) as [->|Hn]; [reflexivity|].
  apply N.log2_spec. lia.
Qed.

Lemma Number_toString_small n :
  n < 10 -> Number_toString n = String (digitChar n) "".
Proof.
  intros H. unfold Number_toString. cbn [toDigits].
  apply N.ltb_lt in H. rewrite H. reflexivity.
Qed.

Lemma Number_toString_step n :
  10 <= n ->
  Number_toString n = Number_toString (n / 10) +:+ String (digitChar (n mod 10)) "".
Proof.
  intros H. unfold Number_toString at 1. cbn [toDigits].
  rewrite (proj2 (N.ltb_ge n 10) H). f_equal.
  destruct (div10_lt_pow n _ H (lt_pow_log2 n)) as (g & Hg & Hd).
  injection Hg as Hg. rewrite Hg.
  apply toDigits_fuel; [exact Hd | apply lt_pow_log2].
Qed.

(** Every decimal string ends with the units digit. *)
Lemma Number_toString_last n :
  exists pre, Number_toString n = pre +:+ String (digitChar (n mod 10)) "".
Proof.
  destruct (N.lt_ge_cases n 10) as [H|H].
  - exists "". rewrite Number_toString_small by exact H.
    rewrite N.mod_small by exact H. reflexivity.
  - eexists. apply Number_toString_step. exact H.
Qed.

Lemma length_append s1 s2 :
  String.length (s1 +:+ s2) = (String.length s1 + String.length s2)%nat.
Proof. induction s1 as [|c s1 IH]; simpl; [reflexivity | rewrite IH; reflexivity]. Qed.

Lemma append_assoc s1 s2 s3 : (s1 +:+ s2) +:+ s3 = s1 +:+ (s2 +:+ s3).
Proof.
  induction s1 as [|c s1 IH]; [reflexivity|].
  change (String c ((s1 +:+ s2) +:+ s3) = String c (s1 +:+ (s2 +:+ s3))).
  rewrite IH. reflexivity.
Qed.

Lemma substring_all s : substring 0 (String.length s) s = s.
Proof. induction s as [|c s IH]; simpl; [reflexivity | rewrite IH; reflexivity]. Qed.

Lemma slice_last_app pre s :
  slice_last (String.length s) (pre +:+ s) = s.
Proof.
  unfold slice_last. rewrite length_append.
  replace (String.length pre + String.length s - String.length s)%nat
    with (String.length pre) by lia.
  induction pre as [|c pre IH]; simpl; [apply substring_all | exact IH].
Qed.

Lemma parseDigits_app s1 : forall acc s2,
  parseDigits acc (s1 +:+ s2) = parseDigits (parseDigits acc s1) s2.
Proof. induction s1 as [|c s1 IH]; intros acc s2; simpl; [reflexivity | apply IH]. Qed.

(** Reading a number's decimal string gives the number back. *)
Lemma parseDigits_toString n : parseDigits 0 (Number_toString n) = n.
Proof.
  induction n as [n IH] using (well_founded_induction N.lt_wf_0).
  destruct (N.lt_ge_cases n 10) as [H|H].
  - rewrite Number_toString_small by exact H. simpl.
    rewrite digitVal_digitChar by exact H. reflexivity.
  - rewrite Number_toString_step by exact H. rewrite parseDigits_app.
    rewrite IH by (apply N.div_lt; lia). simpl.
    rewrite digitVal_digitChar by (apply N.mod_lt; lia).
    pose proof (N.div_mod n 10). lia.
Qed.

Lemma parseDigits_zeros k s : parseDigits 0 (repeat_char "0" k +:+ s) = parseDigits 0 s.
Proof. induction k as [|k IH]; simpl; [reflexivity | exact IH]. Qed.

Lemma parseDigits_padStart k n : parseDigits 0 (padStart k "0" (Number_toString n)) = n.
Proof. unfold padStart. rewrite parseDigits_zeros. apply parseDigits_toString. Qed.

Lemma length_repeat_char c k : String.length (repeat_char c k) = k.
Proof. induction k as [|k IH]; simpl; [reflexivity | rewrite IH; reflexivity]. Qed.

Lemma length_padStart k c s :
  String.length (padStart k c s) = Nat.max k (String.length s).
Proof. unfold padStart. rewrite length_append, length_repeat_char. lia. Qed.

(** A number below [10^(k+1)] prints with at most [k+1] digits. *)
Lemma length_toString_le n : forall k,
  n < 10 ^ N.of_nat (S k) -> (String.length (Number_toString n) <= S k)%nat.
Proof.
  induction n as [n IH] using (well_founded_induction N.lt_wf_0). intros k Hk.
  destruct (N.lt_ge_cases n 10) as [H|H].
  - rewrite Number_toString_small by exact H. simpl. lia.
  - rewrite Number_toString_step by exact H. rewrite length_append. simpl.
    rewrite Nat2N.inj_succ, N.pow_succ_r' in Hk.
    destruct k as [|k].
    + simpl in Hk. lia.
    + assert (Hd : n / 10 < 10 ^ N.of_nat (S k)) by (apply N.Div0.div_lt_upper_bound; lia).
      specialize (IH (n / 10) ltac:(apply N.div_lt; lia) k Hd). lia.
Qed.

(** A number from [10^k] on prints with more than [k] digits. *)
Lemma length_toString_gt n : forall k,
  10 ^ N.of_nat k <= n -> (k < String.length (Number_toString n))%nat.
Proof.
  induction n as [n IH] using (well_founded_induction N.lt_wf_0). intros k Hk.
  destruct (N.lt_ge_cases n 10) as [H|H].
  - rewrite Number_toString_small by exact H. simpl.
    destruct k as [|k]; [lia|].
    rewrite Nat2N.inj_succ, N.pow_succ_r' in Hk.
    assert (10 ^ N.of_nat k <> 0) by (apply N.pow_nonzero; lia). lia.
  - rewrite Number_toString_step by exact H. rewrite length_append. simpl.
    destruct k as [|k]; [lia|].
    rewrite Nat2N.inj_succ, N.pow_succ_r' in Hk.
    assert (Hd : 10 ^ N.of_nat k <= n / 10) by (apply N.div_le_lower_bound; lia).
    specialize (IH (n / 10) ltac:(apply N.div_lt; lia) k Hd). lia.
Qed.

(** Two digits, zero-padded: the tens and the units. *)
Lemma padStart2_digits n :
  n < 100 -> padStart 2 "0" (Number_toString n) = digits2 n.
Proof.
  intros Hn. unfold digits2. destruct (N.lt_ge_cases n 10) as [H|H].
  - rewrite Number_toString_small by exact H.
    rewrite N.div_small, (N.mod_small n 10) by exact H. reflexivity.
  - rewrite Number_toString_step by exact H.
    assert (Hd : n / 10 < 10) by (apply N.Div0.div_lt_upper_bound; lia).
    rewrite Number_toString_small by exact Hd.
    rewrite (N.mod_small (n / 10)) by exact Hd. reflexivity.
Qed.

(** The last two characters of a number of two digits or more. *)
Lemma slice_last2_digits n :
  10 <= n -> slice_last 2 (Number_toString n) = digits2 n.
Proof.
  intros H. rewrite Number_toString_step by exact H.
  destruct (Number_toString_last (n / 10)) as [pre ->].
  rewrite append_assoc. apply (slice_last_app pre).
Qed.

(** Four digits, zero-padded. *)
Lemma padStart4_digits n :
  n < 10000 -> padStart 4 "0" (Number_toString n) = digits4 n.
Proof.
  intros Hn. unfold digits4, digits2.
  destruct (N.lt_ge_cases n 10) as [H1|H1].
  { rewrite Number_toString_small by exact H1.
    rewrite !N.div_small, (N.mod_small n 10) by lia. reflexivity. }
  rewrite Number_toString_step by exact H1.
  assert (Hd1 : n / 10 < 1000) by (apply N.Div0.div_lt_upper_bound; lia).
  assert (E2 : n / 100 = n / 10 / 10) by (rewrite N.Div0.div_div; reflexivity).
  assert (E3 : n / 1000 = n / 10 / 10 / 10) by (rewrite !N.Div0.div_div; reflexivity).
  rewrite E2, E3.
  destruct (N.lt_ge_cases (n / 10) 10) as [H2|H2].
  { rewrite Number_toString_small by exact H2.
    rewrite !(N.div_small (n / 10)), (N.mod_small (n / 10)) by lia. reflexivity. }
  rewrite Number_toString_step by exact H2.
  assert (Hd2 : n / 10 / 10 < 100) by (apply N.Div0.div_lt_upper_bound; lia).
  destruct (N.lt_ge_cases (n / 10 / 10) 10) as [H3|H3].
  { rewrite Number_toString_small by exact H3.
    rewrite (N.div_small (n / 10 / 10)), (N.mod_small (n / 10 / 10)) by lia. reflexivity. }
  rewrite Number_toString_step by exact H3.
  assert (Hd3 : n / 10 / 10 / 10 < 10) by (apply N.Div0.div_lt_upper_bound; lia).
  rewrite Number_toString_small by exact Hd3.
  rewrite (N.mod_small (n / 10 / 10 / 10)) by exact Hd3. reflexivity.
Qed.

End DecimalStrings.

(** ** The order number *)

(** The range counted by the hook is the calendar day of the clock. *)
Lemma between_sameDay (date : Date.t) (o : Order.t) :
  Date_geb (Order.createdAt o)
    (Date_ymd (Date.getFullYear date) (Date.getMonth date) (Date.getDate date)) &&
  Date_ltb (Order.createdAt o)
    (Date_ymd (Date.getFullYear date) (Date.getMonth date) (Date.getDate date + 1))
  = sameDay date o.
Proof.
  unfold Date_geb, Date_ltb, Date_compare, Date_ymd, sameDay. simpl.
  destruct (Order.createdAt o) as [cy cm cd cms]. simpl.
  destruct date as [y m d ms]. simpl.
  destruct (N.compare_spec cy y), (N.compare_spec cm m), (N.compare_spec cd d),
    (N.compare_spec cd (d + 1)), (N.compare_spec cms 0);
    destruct (N.eqb_spec cy y), (N.eqb_spec cm m), (N.eqb_spec cd d);
    simpl; try reflexivity; lia.
Qed.

Lemma countCreatedBetween_day (date : Date.t) (coll : gmap string Order.t) :
  countCreatedBetween
    (Date_ymd (Date.getFullYear date) (Date.getMonth date) (Date.getDate date))
    (Date_ymd (Date.getFullYear date) (Date.getMonth date) (Date.getDate date + 1)) coll
  = ordersOfDay date coll.
Proof.
  unfold countCreatedBetween, ordersOfDay. do 2 f_equal.
  induction (map_to_list coll) as [|kv l IH]; simpl; [reflexivity|].
  rewrite between_sameDay, IH. reflexivity.
Qed.

(** A new order gets the number built from the clock's date and the count
    of the day's stored orders. *)
Lemma Order_new_orderNumber env doc coll :
  Order.orderNumber (Order_new env doc coll) =
  orderNumberFor (now env) (ordersOfDay (now env) coll).
Proof.
  unfold Order_new, Order_pre_save. simpl. rewrite countCreatedBetween_day. reflexivity.
Qed.

(** C9 (as the code has it). On a date whose year has at least two digits,
    a new order is numbered 'ORD', the two low digits of the year, the
    month and the day in two digits each, and the decimal digits of the
    count of orders already created that day plus one, zero-padded to at
    least four digits: exactly four while that number is below 10000; after
    two earlier orders of the day they are 0003. *)
Theorem orderNumber_generated (env : Env) (doc : OrderDoc) (coll : gmap string Order.t) :
  let date := now env in
  let n := (ordersOfDay date coll + 1)%N in
  (10 <= Date.getFullYear date)%N ->
  (Date.getMonth date < 12)%N ->
  (Date.getDate date <= 31)%N ->
  exists sequence,
    Order.orderNumber (Order_new env doc coll) =
      "ORD" +:+ digits2 (Date.getFullYear date) +:+ digits2 (Date.getMonth date + 1)
            +:+ digits2 (Date.getDate date) +:+ sequence /\
    parseDigits 0 sequence = n /\
    (4 <= String.length sequence)%nat /\
    (String.length sequence = 4%nat <-> (n < 10000)%N) /\
    ((n < 10000)%N -> sequence = digits4 n) /\
    (ordersOfDay date coll = 2%N -> sequence = "0003").
Proof.
  intros date n Hy Hm Hd.
  exists (padStart 4 "0" (Number_toString n)).
  split; [|split; [|split; [|split; [|split]]]].
  - rewrite Order_new_orderNumber. unfold orderNumberFor. fold date. fold n.
    rewrite slice_last2_digits by exact Hy.
    rewrite !padStart2_digits by lia. reflexivity.
  - apply parseDigits_padStart.
  - rewrite length_padStart. lia.
  - rewrite length_padStart. split.
    + intros Hlen. destruct (N.lt_ge_cases n 10000) as [Hlt|Hge]; [exact Hlt|].
      pose proof (length_toString_gt n 4 Hge). lia.
    + intros Hlt. pose proof (length_toString_le n 3 Hlt). lia.
  - apply padStart4_digits.
  - intros H2. subst n. rewrite H2. reflexivity.
Qed.

(** With two orders of the day stored, the next number ends in 0003. *)
Lemma orderNumber_generated_witness :
  ordersOfDay (now env3) (busyDay 2) = 2%N /\
  Order.orderNumber (Order_new env3 (mkDoc "u1" [] 50 50 None None None (Some "s1")) (busyDay 2))
  = "ORD2611020003".
Proof.
  split; [vm_compute; reflexivity|].
  destruct (orderNumber_generated env3 (mkDoc "u1" [] 50 50 None None None (Some "s1"))
              (busyDay 2)) as (sequence & Hnum & _ & _ & _ & _ & H3).
  - vm_compute. discriminate.
  - reflexivity.
  - vm_compute. discriminate.
  - rewrite Hnum, H3; [reflexivity | vm_compute; reflexivity].
Defined.

(** C9 (as stated). With 9999 orders of the day already stored, the
    sequence of the next order has five digits: its number is not 'ORD',
    six date digits and a four-digit sequence. *)
Lemma orderNumber_sequence_five_digits :
  let doc := mkDoc "u1" [] 50 50 None None None (Some "s1") in
  ordersOfDay day (busyDay 9999) = 9999%N /\
  Order.orderNumber (Order_new env1 doc (busyDay 9999)) = "ORD26110210000" /\
  ~ (exists sequence,
       String.length sequence = 4%nat /\
       Order.orderNumber (Order_new env1 doc (busyDay 9999)) = "ORD261102" +:+ sequence).
Proof.
  intros doc.
  assert (Hcount : ordersOfDay day (busyDay 9999) = 9999%N) by (vm_compute; reflexivity).
  assert (Hnum : Order.orderNumber (Order_new env1 doc (busyDay 9999)) = "ORD26110210000").
  { rewrite Order_new_orderNumber. change (now env1) with day. rewrite Hcount.
    vm_compute. reflexivity. }
  split; [exact Hcount|]. split; [exact Hnum|].
  intros (sequence & Hlen & Heq). rewrite Hnum in Heq.
  change "ORD26110210000" with ("ORD261102" +:+ "10000") in Heq.
  apply (inj (String.app "ORD261102")) in Heq.
  subst sequence. simpl in Hlen. discriminate.
Qed.

(** * Further properties of the order handlers *)

(** ** What the handlers do to the products *)

Lemma same_description_refl p : same_description p p.
Proof. unfold same_description. auto. Qed.

Lemma only_stock_changes_refl ps : only_stock_changes ps ps.
Proof.
  intros k. destruct (ps !! k); constructor. apply same_description_refl.
Qed.

Lemma only_stock_changes_trans ps1 ps2 ps3 :
  only_stock_changes ps1 ps2 -> only_stock_changes ps2 ps3 -> only_stock_changes ps1 ps3.
Proof.
  intros H12 H23 k. specialize (H12 k). specialize (H23 k).
  destruct H12 as [p1 p2 (A1 & A2 & A3 & A4)|]; inversion H23 as [? p3 (B1 & B2 & B3 & B4)|];
    subst; constructor.
  unfold same_description. repeat split; congruence.
Qed.

Lemma only_stock_changes_save ps id p s :
  ps !! id = Some p ->
  only_stock_changes ps (Product_save id (set_stock p s) ps).
Proof.
  intros Hp k. unfold Product_save. rewrite lookup_insert.
  destruct (decide (id = k)) as [<-|Hne].
  - rewrite Hp. constructor. unfold same_description. simpl. auto.
  - destruct (ps !! k); constructor. apply same_description_refl.
Qed.

Lemma reserve_desc item ps ps' r :
  reserve item ps = (ps', r) -> only_stock_changes ps ps'.
Proof.
  destruct r as [e|line]; intros H.
  - apply reserve_inl in H. subst. apply only_stock_changes_refl.
  - apply reserve_inr in H as (p & Hp & _ & _ & -> & _).
    apply only_stock_changes_save. exact Hp.
Qed.

Lemma reserveItems_desc items : forall ps t acc,
  only_stock_changes ps (fst (reserveItems items ps t acc)).
Proof.
  induction items as [|it items IH]; intros ps t acc; simpl.
  - apply only_stock_changes_refl.
  - destruct (reserve it ps) as [ps1 [e|line]] eqn:Hr; simpl.
    + eapply reserve_desc. exact Hr.
    + eapply only_stock_changes_trans; [eapply reserve_desc; exact Hr | apply IH].
Qed.

Lemma createOrder_products_any env user body db :
  products (fst (createOrder env user body db)) = products db \/
  exists it items,
    products (fst (createOrder env user body db)) =
    fst (reserveItems (it :: items) (products db) 0 []).
Proof.
  destruct (body_items body) as [[|it items]|] eqn:Hb.
  - left. unfold createOrder. rewrite Hb. reflexivity.
  - right. exists it, items. apply createOrder_products. exact Hb.
  - left. unfold createOrder. rewrite Hb. reflexivity.
Qed.

(** X1. No order handler creates or deletes a product or touches a
    product's shop, name, price or active flag: [createOrder] and
    [cancelOrder] change stock and availability only, [updateOrderStatus]
    and [rateOrder] leave the products as they are. *)
Theorem order_handlers_change_only_stock (env : Env) (user : User.t) (db : DB) :
  (forall body, only_stock_changes (products db) (products (fst (createOrder env user body db)))) /\
  (forall id, only_stock_changes (products db) (products (fst (cancelOrder env user id db)))) /\
  (forall id status, products (fst (updateOrderStatus env user id status db)) = products db) /\
  (forall id rating review, products (fst (rateOrder env user id rating review db)) = products db).
Proof.
  split; [|split; [|split]].
  - intros body. destruct (createOrder_products_any env user body db) as [->|(it & items & ->)].
    + apply only_stock_changes_refl.
    + apply reserveItems_desc.
  - intros id. rewrite (proj1 (cancelOrder_inv env user id db)).
    apply only_stock_changes_refl.
  - intros id status. rewrite (proj1 (updateOrderStatus_inv env user id status db)).
    reflexivity.
  - intros id rating review. rewrite (proj1 (rateOrder_inv env user id rating review db)).
    reflexivity.
Qed.

Lemma availability_ok_save ps id p :
  availability_ok ps -> availability_ok (Product_save id p ps).
Proof.
  intros H k q. unfold Product_save. rewrite lookup_insert.
  destruct (decide (id = k)) as [<-|Hne]; [|apply H].
  intros [= <-]. reflexivity.
Qed.

Lemma reserve_availability item ps ps' r :
  reserve item ps = (ps', r) -> availability_ok ps -> availability_ok ps'.
Proof.
  destruct r as [e|line]; intros H Hok.
  - apply reserve_inl in H. subst. exact Hok.
  - apply reserve_inr in H as (p & _ & _ & _ & -> & _). apply availability_ok_save. exact Hok.
Qed.

Lemma reserveItems_availability items : forall ps t acc,
  availability_ok ps -> availability_ok (fst (reserveItems items ps t acc)).
Proof.
  induction items as [|it items IH]; intros ps t acc Hok; simpl; [exact Hok|].
  destruct (reserve it ps) as [ps1 [e|line]] eqn:Hr; simpl.
  - eapply reserve_availability; eauto.
  - apply IH. eapply reserve_availability; eauto.
Qed.

(** X2. If every stored product is flagged available exactly when its
    stock is positive, this is still so after [createOrder] and after
    [cancelOrder], whatever the request and however it ends. *)
Theorem order_handlers_keep_availability (env : Env) (user : User.t) (db : DB) :
  availability_ok (products db) ->
  (forall body, availability_ok (products (fst (createOrder env user body db)))) /\
  (forall id, availability_ok (products (fst (cancelOrder env user id db)))).
Proof.
  intros Hok. split.
  - intros body. destruct (createOrder_products_any env user body db) as [->|(it & items & ->)];
      [exact Hok | apply reserveItems_availability; exact Hok].
  - intros id. rewrite (proj1 (cancelOrder_inv env user id db)). exact Hok.
Qed.

Lemma availability_ok_db0 : availability_ok (products db0).
Proof.
  intros k p H. simpl in H. apply lookup_singleton_Some in H as [_ <-]. reflexivity.
Qed.

(** All three units of tea are requested: tea is stored as unavailable,
    and stays so after the request to cancel. *)
Lemma order_handlers_keep_availability_witness :
  let body := mkBody (Some [ReqItem.mk (RefObj "p1" (Some "s1")) 3]) None None None in
  let db1 := fst (createOrder env1 alice body db0) in
  let db2 := fst (cancelOrder env1 alice "o1" db1) in
  availability_ok (products db1) /\
  Product.isAvailable <$> products db1 !! "p1" = Some false /\
  Product.isAvailable <$> products db2 !! "p1" = Some false.
Proof.
  intros body db1 db2.
  destruct (order_handlers_keep_availability env1 alice db0 availability_ok_db0) as [H _].
  split; [apply H|]. split; reflexivity.
Defined.

Lemma reserve_nonneg item ps ps' r :
  reserve item ps = (ps', r) -> stock_nonneg ps -> stock_nonneg ps'.
Proof.
  destruct r as [e|line]; intros H Hok.
  - apply reserve_inl in H. subst. exact Hok.
  - apply reserve_inr in H as (p & _ & _ & Hq & -> & _).
    intros k q. unfold Product_save. rewrite lookup_insert.
    destruct (decide _) as [_|_]; [|apply Hok].
    intros [= <-]. simpl. lia.
Qed.

Lemma reserveItems_nonneg items : forall ps t acc,
  stock_nonneg ps -> stock_nonneg (fst (reserveItems items ps t acc)).
Proof.
  induction items as [|it items IH]; intros ps t acc Hok; simpl; [exact Hok|].
  destruct (reserve it ps) as [ps1 [e|line]] eqn:Hr; simpl.
  - eapply reserve_nonneg; eauto.
  - apply IH. eapply reserve_nonneg; eauto.
Qed.

(** X3. [createOrder] never oversells: if no stored product has a negative
    stock, none has after the request, whatever items and quantities it
    asks for and however it ends. *)
Theorem createOrder_never_oversells (env : Env) (user : User.t) (body : CreateBody) (db : DB) :
  stock_nonneg (products db) ->
  stock_nonneg (products (fst (createOrder env user body db))).
Proof.
  intros Hok. destruct (createOrder_products_any env user body db) as [->|(it & items & ->)];
    [exact Hok | apply reserveItems_nonneg; exact Hok].
Qed.

(** Four units of tea are refused when three are in stock, and three
    remain. *)
Lemma createOrder_never_oversells_witness :
  let body := mkBody (Some [ReqItem.mk (RefId "p1") 4]) None None None in
  stock_nonneg (products (fst (createOrder env1 alice body db0))) /\
  stockOf (products (fst (createOrder env1 alice body db0))) "p1" = Some 3.
Proof.
  intros body. split; [|reflexivity].
  apply createOrder_never_oversells.
  intros k p H. simpl in H. apply lookup_singleton_Some in H as [_ <-]. simpl. lia.
Defined.

(** ** What createOrder leaves behind *)

(** X4. [createOrder] never stores an order, never sends a notification
    and never answers with JSON: the orders, the shops and the
    notifications are as they were after every request.  When all items of
    the request are reserved the handler throws, and the stock of every
    product is lower by the units requested, with no order that holds
    them. *)
Theorem createOrder_takes_stock_stores_nothing (env : Env) (user : User.t)
    (body : CreateBody) (db : DB) :
  orders (fst (createOrder env user body db)) = orders db /\
  shops (fst (createOrder env user body db)) = shops db /\
  notifications (fst (createOrder env user body db)) = notifications db /\
  (forall code o, snd (createOrder env user body db) <> Json code o) /\
  (forall it items ps r,
     body_items body = Some (it :: items) ->
     reserveItems (it :: items) (products db) 0 [] = (ps, inr r) ->
     createOrder env user body db = (set_products db ps, Throws) /\
     forall k, stockOf ps k
               = (fun s => s - quantityOf k (it :: items)) <$> stockOf (products db) k).
Proof.
  destruct (createOrder_inv env user body db)
    as [[H Hb]|(it & items & ps & res & Hb & Hr & H)]; rewrite H.
  - split; [reflexivity|]. split; [reflexivity|]. split; [reflexivity|].
    split; [discriminate|].
    intros it items ps r Hb'. destruct Hb as [Hb|Hb]; congruence.
  - split; [reflexivity|]. split; [reflexivity|]. split; [reflexivity|].
    split; [destruct res; discriminate|].
    intros it' items' ps' r Hb' Hr'. rewrite Hb in Hb'. injection Hb' as <- <-.
    rewrite Hr in Hr'. injection Hr' as <- ->. split; [reflexivity|].
    destruct r as [t lines].
    apply reserveItems_inr in Hr as (_ & _ & _ & _ & Hst & _). exact Hst.
Qed.

(** ** Order numbers of one day *)

Lemma filter_length_Permutation {A} (f : A -> bool) (l1 l2 : list A) :
  l1 ≡ₚ l2 -> length (List.filter f l1) = length (List.filter f l2).
Proof.
  induction 1 as [|x l1 l2 _ IH|x y l|l1 l2 l3 _ IH1 _ IH2]; simpl.
  - reflexivity.
  - destruct (f x); simpl; congruence.
  - destruct (f x), (f y); reflexivity.
  - congruence.
Qed.

Lemma ordersOfDay_insert_fresh date id o (coll : gmap string Order.t) :
  coll !! id = None ->
  ordersOfDay date (<[id := o]> coll) =
  ((if sameDay date o then 1 else 0) + ordersOfDay date coll)%N.
Proof.
  intros Hfresh. unfold ordersOfDay.
  rewrite (filter_length_Permutation _ _ _ (map_to_list_insert coll id o Hfresh)).
  simpl. destruct (sameDay date o); simpl; lia.
Qed.

Lemma sameDay_ext d1 d2 o :
  Date.getFullYear d1 = Date.getFullYear d2 ->
  Date.getMonth d1 = Date.getMonth d2 ->
  Date.getDate d1 = Date.getDate d2 ->
  sameDay d1 o = sameDay d2 o.
Proof. intros H1 H2 H3. unfold sameDay. rewrite H1, H2, H3. reflexivity. Qed.

Lemma ordersOfDay_ext d1 d2 (coll : gmap string Order.t) :
  Date.getFullYear d1 = Date.getFullYear d2 ->
  Date.getMonth d1 = Date.getMonth d2 ->
  Date.getDate d1 = Date.getDate d2 ->
  ordersOfDay d1 coll = ordersOfDay d2 coll.
Proof.
  intros H1 H2 H3. unfold ordersOfDay. do 2 f_equal.
  induction (map_to_list coll) as [|kv l IH]; simpl; [reflexivity|].
  rewrite (sameDay_ext d1 d2 _ H1 H2 H3), IH. reflexivity.
Qed.

(** On one calendar day different counts give different numbers. *)
Lemma orderNumberFor_inj d1 d2 n1 n2 :
  Date.getFullYear d1 = Date.getFullYear d2 ->
  Date.getMonth d1 = Date.getMonth d2 ->
  Date.getDate d1 = Date.getDate d2 ->
  orderNumberFor d1 n1 = orderNumberFor d2 n2 -> n1 = n2.
Proof.
  intros H1 H2 H3. unfold orderNumberFor. rewrite H1, H2, H3. intros H.
  repeat apply (inj (String.app _)) in H.
  apply (f_equal (parseDigits 0)) in H. rewrite !parseDigits_padStart in H. lia.
Qed.

(** X8. The hook numbers two new orders of one calendar day apart: once
    the first is stored, under an identifier that was free, with its
    creation date on that day, a second new order gets another number. *)
Theorem consecutive_orders_numbered_apart (d1 d2 : Date.t) (id : string) (o1 o2 : Order.t)
    (coll : gmap string Order.t) :
  coll !! id = None ->
  sameDay d1 o1 = true ->
  Date.getFullYear d1 = Date.getFullYear d2 ->
  Date.getMonth d1 = Date.getMonth d2 ->
  Date.getDate d1 = Date.getDate d2 ->
  let stored1 := Order_pre_save true d1 coll o1 in
  Order.orderNumber stored1
  <> Order.orderNumber (Order_pre_save true d2 (<[id := stored1]> coll) o2).
Proof.
  intros Hfresh Hday Hy Hm Hd stored1 Heq.
  unfold stored1, Order_pre_save in Heq.
  cbn [Order.orderNumber Order_set_orderNumber] in Heq.
  rewrite !countCreatedBetween_day in Heq.
  apply (orderNumberFor_inj _ _ _ _ Hy Hm Hd) in Heq.
  rewrite (ordersOfDay_insert_fresh _ _ _ _ Hfresh) in Heq.
  rewrite (ordersOfDay_ext d2 d1) in Heq by congruence.
  match type of Heq with
  | context [sameDay d2 ?x] =>
      assert (Hs : sameDay d2 x = true)
        by (rewrite (sameDay_ext d2 d1) by congruence; exact Hday)
  end.
  rewrite Hs in Heq. lia.
Qed.

(** On the example day, with nothing stored, the first new order is
    numbered ...0001 and the next ...0002. *)
Lemma consecutive_orders_numbered_apart_witness :
  let stored1 := Order_pre_save true day ∅ anOrder in
  Order.orderNumber stored1 = "ORD2611020001" /\
  Order.orderNumber (Order_pre_save true day (<["o1" := stored1]> ∅) anOrder)
  = "ORD2611020002" /\
  Order.orderNumber stored1
  <> Order.orderNumber (Order_pre_save true day (<["o1" := stored1]> ∅) anOrder).
Proof.
  intros stored1. split; [vm_compute; reflexivity|]. split; [vm_compute; reflexivity|].
  apply (consecutive_orders_numbered_apart day day "o1" anOrder anOrder ∅); reflexivity.
Defined.

(** ** Pagination and statistics *)

Lemma Date_geb_spec a b : Date_geb a b = true <-> not_older a b.
Proof.
  unfold Date_geb, Date_compare, not_older.
  destruct (N.compare_spec (Date.getFullYear a) (Date.getFullYear b)),
    (N.compare_spec (Date.getMonth a) (Date.getMonth b)),
    (N.compare_spec (Date.getDate a) (Date.getDate b)),
    (N.compare_spec (Date.msOfDay a) (Date.msOfDay b));
    split; intros Hgeb; try reflexivity; try discriminate; lia.
Qed.

Lemma Order_find_spec matches (coll : gmap string Order.t) o :
  o ∈ Order_find matches coll <-> matches o = true /\ exists id, coll !! id = Some o.
Proof.
  unfold Order_find. rewrite list_elem_of_In, filter_In, <- list_elem_of_In.
  rewrite list_elem_of_fmap. split.
  - intros [([id o'] & -> & Hin) Hm]. split; [exact Hm|].
    exists id. apply elem_of_map_to_list. exact Hin.
  - intros [Hm [id Hid]]. split; [|exact Hm].
    exists (id, o). split; [reflexivity|]. apply elem_of_map_to_list. exact Hid.
Qed.

Lemma ceil_div_pos total limit :
  0 < limit -> ceil_div total limit = Some (- ((- total) / limit)).
Proof.
  intros Hl. unfold ceil_div. rewrite (proj2 (Z.eqb_neq limit 0)) by lia.
  f_equal. unfold Qceiling. f_equal. rewrite Zdiv_Qdiv. apply Qfloor_comp.
  unfold Qdiv. rewrite inject_Z_opp. ring.
Qed.

(** X11. For a page and a limit of at least 1 the pagination object is
    coherent: [totalPages] is the least number of pages of [limit] items
    that hold [totalItems] items, [hasNextPage] holds exactly on the pages
    before the last, and [hasPrevPage] exactly from the second page on. *)
Theorem pagination_coherent (page limit total : Z) :
  1 <= page -> 1 <= limit -> 0 <= total ->
  let pg := pagination page limit total in
  exists pages,
    totalPages pg = Some pages /\
    (pages - 1) * limit < total <= pages * limit /\
    (hasNextPage pg = true <-> page < pages) /\
    (hasPrevPage pg = true <-> 1 < page) /\
    currentPage pg = page /\ totalItems pg = total.
Proof.
  intros Hp Hl Ht pg. exists (- ((- total) / limit)).
  split; [apply ceil_div_pos; lia|].
  pose proof (Z.div_mod (- total) limit ltac:(lia)) as Hdm.
  pose proof (Z.mod_pos_bound (- total) limit ltac:(lia)) as Hb.
  set (q := (- total) / limit) in *. set (r := (- total) mod limit) in *.
  split; [nia|]. split; [|split; [|split; reflexivity]].
  - simpl. rewrite Z.ltb_lt. split; intros H; nia.
  - simpl. apply Z.ltb_lt.
Qed.

(** 45 items in pages of 20: three pages, and page 2 has a next and a
    previous page. *)
Lemma pagination_coherent_witness :
  pagination 2 20 45 = mkPagination 2 (Some 3) 45 true true.
Proof.
  destruct (pagination_coherent 2 20 45) as (pages & H1 & H2 & _); [lia..|].
  unfold pagination in *. simpl in H1. rewrite H1.
  assert (pages = 3) by lia. subst pages. reflexivity.
Defined.

(** * Order statistics *)

Lemma addToGroup_sums status amount gs :
  sumCounts (addToGroup status amount gs) = sumCounts gs + 1 /\
  sumAmounts (addToGroup status amount gs) = sumAmounts gs + amount.
Proof.
  induction gs as [|g gs [IH1 IH2]]; simpl; [lia|].
  destruct (String.eqb (StatGroup._id g) status); simpl; lia.
Qed.

Lemma addToGroup_ids status amount gs :
  StatGroup._id <$> addToGroup status amount gs =
  if bool_decide (status ∈ StatGroup._id <$> gs)
  then StatGroup._id <$> gs else (StatGroup._id <$> gs) ++ [status].
Proof.
  induction gs as [|g gs IH]; [reflexivity|].
  cbn [addToGroup]. rewrite (fmap_cons _ g gs).
  destruct (String.eqb (StatGroup._id g) status) eqn:He.
  - apply String.eqb_eq in He. rewrite fmap_cons. cbn [StatGroup._id]. rewrite He.
    rewrite bool_decide_eq_true_2 by apply list_elem_of_here. reflexivity.
  - apply String.eqb_neq in He. rewrite fmap_cons, IH.
    destruct (bool_decide (status ∈ StatGroup._id <$> gs)) eqn:Hin.
    + apply bool_decide_eq_true in Hin.
      rewrite bool_decide_eq_true_2 by (apply list_elem_of_further; exact Hin). reflexivity.
    + apply bool_decide_eq_false in Hin.
      rewrite bool_decide_eq_false_2; [reflexivity|].
      intros H. apply elem_of_cons in H as [H|H]; [congruence | contradiction].
Qed.

Lemma sumTotals_app l1 l2 : sumTotals (l1 ++ l2) = sumTotals l1 + sumTotals l2.
Proof. induction l1 as [|x l1 IH]; simpl; lia. Qed.

Lemma withStatus_snoc status l o :
  withStatus status (l ++ [o]) =
  withStatus status l ++ (if String.eqb (Order.status o) status then [o] else []).
Proof. unfold withStatus. rewrite List.filter_app. reflexivity. Qed.

Lemma withStatus_absent status l :
  (forall o, o ∈ l -> Order.status o <> status) -> withStatus status l = [].
Proof.
  induction l as [|x l IH]; intros H; [reflexivity|].
  unfold withStatus. simpl.
  assert (Hx : String.eqb (Order.status x) status = false)
    by (apply String.eqb_neq, H, list_elem_of_here).
  rewrite Hx. apply IH. intros o Ho. apply H, list_elem_of_further, Ho.
Qed.

Lemma addToGroup_elem status amount gs g :
  NoDup (StatGroup._id <$> gs) ->
  g ∈ addToGroup status amount gs ->
  (StatGroup._id g <> status /\ g ∈ gs) \/
  (StatGroup._id g = status /\
   ((exists g0, g0 ∈ gs /\ StatGroup._id g0 = status /\
                StatGroup.count g = StatGroup.count g0 + 1 /\
                StatGroup.totalAmount g = StatGroup.totalAmount g0 + amount) \/
    ((status ∉ StatGroup._id <$> gs) /\ StatGroup.count g = 1 /\
     StatGroup.totalAmount g = amount))).
Proof.
  induction gs as [|g1 gs IH]; simpl; intros Hnd Hin.
  - apply list_elem_of_singleton in Hin. subst g. right. simpl.
    split; [reflexivity|]. right. split; [apply not_elem_of_nil | auto].
  - apply NoDup_cons in Hnd as [Hnotin Hnd].
    destruct (String.eqb (StatGroup._id g1) status) eqn:He.
    + apply String.eqb_eq in He. apply elem_of_cons in Hin as [->|Hin].
      * right. simpl. split; [reflexivity|]. left. exists g1.
        split; [apply list_elem_of_here | auto].
      * left. split; [|apply list_elem_of_further; exact Hin].
        intros E. apply Hnotin. rewrite He, <- E. apply list_elem_of_fmap. eauto.
    + apply String.eqb_neq in He. apply elem_of_cons in Hin as [->|Hin].
      * left. split; [exact He | apply list_elem_of_here].
      * destruct (IH Hnd Hin) as [[Hne Hg]|[Heq [(g0 & Hg0 & Hid & Hc & Ha)|(Hn & Hc & Ha)]]].
        -- left. split; [exact Hne | apply list_elem_of_further; exact Hg].
        -- right. split; [exact Heq|]. left. exists g0.
           split; [apply list_elem_of_further; exact Hg0 | auto].
        -- right. split; [exact Heq|]. right. split; [|auto].
           intros H. apply elem_of_cons in H as [H|H]; [congruence | contradiction].
Qed.

Lemma groups_describe_step gs l o :
  groups_describe gs l ->
  groups_describe (addToGroup (Order.status o) (Order.total o) gs) (l ++ [o]).
Proof.
  intros (Hnd & Hg & Hcover). split; [|split].
  - rewrite addToGroup_ids. destruct (bool_decide _) eqn:Hin; [exact Hnd|].
    apply bool_decide_eq_false in Hin.
    apply NoDup_app. split; [exact Hnd|]. split; [|apply NoDup_singleton].
    intros x Hx Hx'. apply list_elem_of_singleton in Hx'. subst x. contradiction.
  - intros g Hin. rewrite withStatus_snoc, length_app, sumTotals_app.
    destruct (addToGroup_elem _ _ _ _ Hnd Hin)
      as [[Hne Hgin]|[Heq [(g0 & Hg0 & Hid & Hc & Ha)|(Hn & Hc & Ha)]]].
    + destruct (Hg g Hgin) as (H1 & H2 & H3).
      assert (Hb : String.eqb (Order.status o) (StatGroup._id g) = false)
        by (apply String.eqb_neq; congruence).
      rewrite Hb. simpl. lia.
    + destruct (Hg g0 Hg0) as (H1 & H2 & H3). rewrite Hid in H2, H3.
      rewrite Heq, String.eqb_refl. simpl. lia.
    + rewrite Heq, String.eqb_refl. simpl.
      rewrite withStatus_absent; [simpl; lia|].
      intros o' Ho' E. apply Hn. rewrite <- E. apply Hcover. exact Ho'.
  - intros o' Ho'. rewrite addToGroup_ids.
    apply elem_of_app in Ho' as [Ho'|Ho'].
    + destruct (bool_decide _); [|apply elem_of_app; left]; apply Hcover; exact Ho'.
    + apply list_elem_of_singleton in Ho'. subst o'.
      destruct (bool_decide _) eqn:Hin.
      * apply bool_decide_eq_true in Hin. exact Hin.
      * apply elem_of_app. right. apply list_elem_of_here.
Qed.

Lemma groupByStatus_describe l : forall gs l0,
  groups_describe gs l0 ->
  groups_describe (fold_left (fun groups o => addToGroup (Order.status o) (Order.total o) groups)
                     l gs) (l0 ++ l).
Proof.
  induction l as [|o l IH]; intros gs l0 H; simpl.
  - rewrite app_nil_r. exact H.
  - replace (l0 ++ o :: l) with ((l0 ++ [o]) ++ l) by (rewrite <- app_assoc; reflexivity).
    apply IH, groups_describe_step, H.
Qed.

Lemma groupByStatus_sums l : forall gs,
  sumCounts (fold_left (fun groups o => addToGroup (Order.status o) (Order.total o) groups) l gs)
    = sumCounts gs + Z.of_nat (length l) /\
  sumAmounts (fold_left (fun groups o => addToGroup (Order.status o) (Order.total o) groups) l gs)
    = sumAmounts gs + sumTotals l.
Proof.
  induction l as [|o l IH]; intros gs; simpl; [lia|].
  destruct (IH (addToGroup (Order.status o) (Order.total o) gs)) as [H1 H2].
  destruct (addToGroup_sums (Order.status o) (Order.total o) gs) as [H3 H4]. lia.
Qed.

(** X13. [getStats] accounts for every order of the shop created in the
    period, once: there is one group per status that occurs, its [count]
    is the number of those orders with that status and its [totalAmount]
    the sum of their totals; the counts add up to the number of orders in
    the period and the amounts to the sum of their totals. *)
Theorem getStats_accounts_for_every_order (shopId : string) (startDate endDate : Date.t)
    (coll : gmap string Order.t) :
  let inPeriod := Order_find (inStats shopId startDate endDate) coll in
  let stats := Order_getStats shopId startDate endDate coll in
  NoDup (StatGroup._id <$> stats) /\
  (forall g, g ∈ stats ->
     0 < StatGroup.count g /\
     StatGroup.count g = Z.of_nat (length (withStatus (StatGroup._id g) inPeriod)) /\
     StatGroup.totalAmount g = sumTotals (withStatus (StatGroup._id g) inPeriod)) /\
  (forall o, o ∈ inPeriod -> Order.status o ∈ StatGroup._id <$> stats) /\
  sumCounts stats = Z.of_nat (length inPeriod) /\
  sumAmounts stats = sumTotals inPeriod /\
  (forall o, o ∈ inPeriod <->
     (exists id, coll !! id = Some o) /\ Order.shop o = Some shopId /\
     not_older (Order.createdAt o) startDate /\ not_older endDate (Order.createdAt o)).
Proof.
  intros inPeriod stats. unfold stats, Order_getStats, groupByStatus. fold inPeriod.
  destruct (groupByStatus_describe inPeriod [] []) as (H1 & H2 & H3).
  { split; [constructor|]. split; intros x Hx; apply not_elem_of_nil in Hx; contradiction. }
  destruct (groupByStatus_sums inPeriod []) as [H4 H5]. simpl in *.
  split; [exact H1|]. split; [exact H2|]. split; [exact H3|].
  split; [lia|]. split; [lia|].
  intros o. unfold inPeriod. rewrite Order_find_spec. unfold inStats.
  rewrite !andb_true_iff, bool_decide_eq_true, Date_geb_spec.
  assert (Hle : Date_leb (Order.createdAt o) endDate = true <->
                not_older endDate (Order.createdAt o)).
  { rewrite <- Date_geb_spec. unfold Date_leb, Date_geb, Date_compare.
    rewrite (N.compare_antisym (Date.getFullYear (Order.createdAt o))),
            (N.compare_antisym (Date.getMonth (Order.createdAt o))),
            (N.compare_antisym (Date.getDate (Order.createdAt o))),
            (N.compare_antisym (Date.msOfDay (Order.createdAt o))).
    destruct (Date.getFullYear (Order.createdAt o) ?= Date.getFullYear endDate)%N,
      (Date.getMonth (Order.createdAt o) ?= Date.getMonth endDate)%N,
      (Date.getDate (Order.createdAt o) ?= Date.getDate endDate)%N,
      (Date.msOfDay (Order.createdAt o) ?= Date.msOfDay endDate)%N; simpl; tauto. }
  rewrite Hle. tauto.
Qed.

(** * The products controller and the orders *)

Lemma ownProduct_inv {A} user id db msg (k : Product.t -> DB * Response A) db' resp :
  ownProduct user id db msg k = (db', resp) ->
  (db' = db /\ (resp = Throws \/ exists e, resp = Next e)) \/
  (exists p s, products db !! id = Some p /\ User.shop user = Some s /\
               Product.shop p = s /\ k p = (db', resp)).
Proof.
  unfold ownProduct. intros H.
  destruct (products db !! id) as [p|]; [|inversion H; eauto].
  destruct (User.shop user) as [s|]; [|inversion H; eauto].
  destruct (String.eqb (Product.shop p) s) eqn:He; simpl in H; [|inversion H; eauto].
  apply String.eqb_eq in He. right. eauto 10.
Qed.

Lemma ownProduct_ok {A} user id db msg (k : Product.t -> DB * Response A) p :
  products db !! id = Some p -> User.shop user = Some (Product.shop p) ->
  ownProduct user id db msg k = k p.
Proof.
  intros Hp Hs. unfold ownProduct. rewrite Hp, Hs, String.eqb_refl. reflexivity.
Qed.

(** X14. [toggleProductStatus] by the owner's shop flips the active flag,
    sets availability from the stock (the save hook) and changes nothing
    else: shop, name, price and stock of the product, the other products
    and the orders are as they were, so a second toggle gives the flag
    back; a missing product is refused with 'Product not found' (404) and
    a product of another shop with 'Not authorized' (401), the database
    staying as it is. *)
Theorem toggleProductStatus_twice (user : User.t) (id : string) (db : DB) :
  (products db !! id = None ->
     toggleProductStatus user id db = (db, Next (mkError "Product not found" 404))) /\
  (forall p s, products db !! id = Some p -> User.shop user = Some s -> Product.shop p <> s ->
     toggleProductStatus user id db =
       (db, Next (mkError "Not authorized to update this product" 401))) /\
  (forall p, products db !! id = Some p -> User.shop user = Some (Product.shop p) ->
     let flipped b :=
       Product.mk (Product.shop p) (Product.name p) (Product.price p) (Product.stock p)
         (0 <? Product.stock p) b in
     let db1 := fst (toggleProductStatus user id db) in
     let db2 := fst (toggleProductStatus user id db1) in
     snd (toggleProductStatus user id db) = Json 200 (flipped (negb (Product.isActive p))) /\
     products db1 !! id = Some (flipped (negb (Product.isActive p))) /\
     (forall k, k <> id -> products db1 !! k = products db !! k) /\
     orders db1 = orders db /\ shops db1 = shops db /\
     snd (toggleProductStatus user id db1) = Json 200 (flipped (Product.isActive p)) /\
     products db2 !! id = Some (flipped (Product.isActive p)) /\
     (forall k, k <> id -> products db2 !! k = products db !! k) /\
     orders db2 = orders db /\ shops db2 = shops db).
Proof.
  split; [|split].
  - intros Hp. unfold toggleProductStatus, ownProduct. rewrite Hp. reflexivity.
  - intros p s Hp Hs Hne. unfold toggleProductStatus, ownProduct. rewrite Hp, Hs.
    apply String.eqb_neq in Hne. rewrite Hne. reflexivity.
  - intros p Hp Hs flipped db1 db2.
    assert (E1 : toggleProductStatus user id db =
                 (set_products db (<[id := flipped (negb (Product.isActive p))]> (products db)),
                  Json 200 (flipped (negb (Product.isActive p)))))
      by (unfold toggleProductStatus; rewrite (ownProduct_ok _ _ _ _ _ p Hp Hs); reflexivity).
    assert (Hp1 : products db1 !! id = Some (flipped (negb (Product.isActive p))))
      by (subst db1; rewrite E1; simpl; apply lookup_insert_eq).
    assert (E2 : toggleProductStatus user id db1 =
                 (set_products db1 (<[id := flipped (Product.isActive p)]> (products db1)),
                  Json 200 (flipped (Product.isActive p)))).
    { unfold toggleProductStatus. rewrite (ownProduct_ok _ _ _ _ _ _ Hp1 Hs).
      unfold Product_save, Product_pre_save, set_isActive, flipped. simpl.
      rewrite negb_involutive. reflexivity. }
    assert (Hk1 : forall k, k <> id -> products db1 !! k = products db !! k).
    { intros k Hk. subst db1. rewrite E1. simpl. apply lookup_insert_ne. congruence. }
    split; [rewrite E1; reflexivity|]. split; [exact Hp1|]. split; [exact Hk1|].
    split; [subst db1; rewrite E1; reflexivity|].
    split; [subst db1; rewrite E1; reflexivity|].
    split; [rewrite E2; reflexivity|].
    split; [subst db2; rewrite E2; simpl; apply lookup_insert_eq|].
    split.
    + intros k Hk. subst db2. rewrite E2. simpl.
      rewrite lookup_insert_ne by congruence. apply Hk1, Hk.
    + subst db2. rewrite E2. simpl. subst db1. rewrite E1. split; reflexivity.
Qed.

(** The shop switches tea off and on again. *)
Lemma toggleProductStatus_twice_witness :
  let db1 := fst (toggleProductStatus owner1 "p1" db0) in
  let db2 := fst (toggleProductStatus owner1 "p1" db1) in
  products db1 !! "p1" = Some (Product.mk "s1" "Tea" 120 3 true false) /\
  products db2 !! "p1" = Some tea.
Proof.
  intros db1 db2.
  destruct (toggleProductStatus_twice owner1 "p1" db0) as (_ & _ & H).
  destruct (H tea) as (_ & H1 & _ & _ & _ & _ & H2 & _); [reflexivity..|].
  split; [exact H1 | exact H2].
Defined.

Lemma reserveItems_inactive items : forall ps t acc pid p,
  ps !! pid = Some p -> Product.isActive p = false ->
  (exists it, it ∈ items /\ castObjectId (ReqItem.product it) = pid) ->
  exists ps' e, reserveItems items ps t acc = (ps', inl e) /\ ps' !! pid = Some p.
Proof.
  induction items as [|it items IH]; intros ps t acc pid p Hp Ha (x & Hx & Hid).
  - apply not_elem_of_nil in Hx. contradiction.
  - simpl. destruct (reserve it ps) as [ps1 [e|line]] eqn:Hr.
    + exists ps1, e. split; [reflexivity|]. apply reserve_inl in Hr. subst. exact Hp.
    + pose proof Hr as Hr'.
      apply reserve_inr in Hr' as (q & Hq & Hqa & _ & Hps1 & _).
      assert (Hne : castObjectId (ReqItem.product it) <> pid)
        by (intros E; rewrite E, Hp in Hq; injection Hq as <-; congruence).
      assert (Hp1 : ps1 !! pid = Some p)
        by (rewrite Hps1; unfold Product_save; rewrite lookup_insert_ne; assumption).
      apply (IH ps1 _ _ pid p Hp1 Ha).
      apply elem_of_cons in Hx as [->|Hx]; [contradiction|]. eauto.
Qed.

(** X15. A product that is not active cannot be ordered: a request with
    an item for it is never answered 201, stores no order, and leaves that
    product as it is. *)
Theorem createOrder_inactive_product (env : Env) (user : User.t) (body : CreateBody) (db : DB)
    (items : list ReqItem.t) (it : ReqItem.t) (p : Product.t) :
  body_items body = Some items ->
  it ∈ items ->
  products db !! castObjectId (ReqItem.product it) = Some p ->
  Product.isActive p = false ->
  exists e,
    snd (createOrder env user body db) = Next e /\
    orders (fst (createOrder env user body db)) = orders db /\
    products (fst (createOrder env user body db)) !! castObjectId (ReqItem.product it) = Some p.
Proof.
  intros Hb Hin Hp Ha. unfold createOrder. rewrite Hb.
  destruct items as [|i0 items]; [apply not_elem_of_nil in Hin; contradiction|].
  destruct (reserveItems_inactive (i0 :: items) (products db) 0 [] _ p Hp Ha)
    as (ps' & e & Hr & Hp'); [eauto|].
  rewrite Hr. exists e. simpl. auto.
Qed.

(** The shop switches tea off; an order for tea is refused as not
    available and the three units stay. *)
Lemma createOrder_inactive_product_witness :
  let db1 := fst (toggleProductStatus owner1 "p1" db0) in
  snd (createOrder env1 alice (body_tea (Some "s1")) db1)
    = Next (mkError "Product Tea is not available" 400) /\
  stockOf (products (fst (createOrder env1 alice (body_tea (Some "s1")) db1))) "p1" = Some 3.
Proof.
  intros db1.
  destruct (products db1 !! "p1") as [p|] eqn:Hp; [|vm_compute in Hp; discriminate].
  destruct (createOrder_inactive_product env1 alice (body_tea (Some "s1")) db1
              [ReqItem.mk (RefObj "p1" (Some "s1")) 2] (ReqItem.mk (RefObj "p1" (Some "s1")) 2) p)
    as (e & He & _ & Hps).
  - reflexivity.
  - apply list_elem_of_here.
  - exact Hp.
  - vm_compute in Hp. injection Hp as <-. reflexivity.
  - split; [vm_compute; reflexivity|].
    unfold stockOf. simpl in Hps. rewrite Hps.
    vm_compute in Hp. injection Hp as <-. reflexivity.
Defined.

(** X16. [updateStock] by the owner's shop sets the stock to the number
    given, if that is not negative, and sets availability from it, leaving
    the rest of the product, the other products and the orders alone; a
    negative stock is rejected by the schema when the product is saved:
    the handler throws and nothing changes.  A missing product is refused
    with 'Product not found' (404) and a product of another shop with
    'Not authorized' (401), nothing changed. *)
Theorem updateStock_sets_stock (user : User.t) (id : string) (stock : Z) (db : DB) :
  (products db !! id = None ->
     updateStock user id stock db = (db, Next (mkError "Product not found" 404))) /\
  (forall p s, products db !! id = Some p -> User.shop user = Some s -> Product.shop p <> s ->
     updateStock user id stock db =
       (db, Next (mkError "Not authorized to update this product" 401))) /\
  (forall p, products db !! id = Some p -> User.shop user = Some (Product.shop p) ->
     stock < 0 ->
     updateStock user id stock db = (db, Throws)) /\
  (forall p, products db !! id = Some p -> User.shop user = Some (Product.shop p) ->
     0 <= stock ->
     exists p',
       snd (updateStock user id stock db) = Json 200 p' /\
       products (fst (updateStock user id stock db)) !! id = Some p' /\
       Product.stock p' = stock /\
       Product.isAvailable p' = bool_decide (0 < stock) /\
       same_description p p' /\
       (forall k, k <> id ->
          products (fst (updateStock user id stock db)) !! k = products db !! k) /\
       orders (fst (updateStock user id stock db)) = orders db).
Proof.
  split; [|split; [|split]].
  - intros Hp. unfold updateStock, ownProduct. rewrite Hp. reflexivity.
  - intros p s Hp Hs Hne. unfold updateStock, ownProduct. rewrite Hp, Hs.
    apply String.eqb_neq in Hne. rewrite Hne. reflexivity.
  - intros p Hp Hs Hneg. unfold updateStock. rewrite (ownProduct_ok _ _ _ _ _ p Hp Hs).
    apply Z.ltb_lt in Hneg. rewrite Hneg. reflexivity.
  - intros p Hp Hs Hpos. unfold updateStock. rewrite (ownProduct_ok _ _ _ _ _ p Hp Hs).
    rewrite (proj2 (Z.ltb_ge stock 0) Hpos). simpl.
    eexists. split; [reflexivity|]. split; [apply lookup_insert_eq|]. simpl.
    split; [reflexivity|]. split.
    + destruct (0 <? stock) eqn:E.
      * apply Z.ltb_lt in E. symmetry. apply bool_decide_eq_true. exact E.
      * apply Z.ltb_ge in E. symmetry. apply bool_decide_eq_false. lia.
    + split; [unfold same_description; simpl; auto|]. split; [|reflexivity].
      intros k Hk. unfold Product_save. apply lookup_insert_ne. congruence.
Qed.

(** The shop sets the stock of tea to zero: tea is stored as unavailable
    and shown as out of stock; a stock of -1 is not stored. *)
Lemma updateStock_sets_stock_witness :
  (exists p',
     products (fst (updateStock owner1 "p1" 0 db0)) !! "p1" = Some p' /\
     Product.stock p' = 0 /\ Product.isAvailable p' = false /\
     stockStatus (Product.stock p') 5 = "out_of_stock") /\
  updateStock owner1 "p1" (-1) db0 = (db0, Throws).
Proof.
  destruct (updateStock_sets_stock owner1 "p1" 0 db0) as (_ & _ & _ & H).
  destruct (H tea) as (p' & _ & Hp' & Hs & Ha & _); [reflexivity| reflexivity | lia |].
  split.
  - exists p'. split; [exact Hp'|]. split; [exact Hs|]. split; [rewrite Ha; reflexivity|].
    rewrite Hs. reflexivity.
  - refine (proj1 (proj2 (proj2 (updateStock_sets_stock owner1 "p1" (-1) db0))) tea _ _ _);
      [reflexivity | reflexivity | lia].
Defined.

Lemma set_products_same db : set_products db (products db) = db.
Proof. destruct db. reflexivity. Qed.

(** X17. [deleteProduct] by the owner's shop removes the product and
    nothing else; an order request that names the removed product is then
    refused with 'Product ... not found' (404) and changes nothing. *)
Theorem deleteProduct_then_orders (user : User.t) (id : string) (db : DB) (p : Product.t) :
  products db !! id = Some p ->
  User.shop user = Some (Product.shop p) ->
  let db1 := fst (deleteProduct user id db) in
  snd (deleteProduct user id db) = Json 200 tt /\
  products db1 !! id = None /\
  (forall k, k <> id -> products db1 !! k = products db !! k) /\
  orders db1 = orders db /\ shops db1 = shops db /\
  (forall env customer ref q,
     castObjectId ref = id ->
     createOrder env customer (mkBody (Some [ReqItem.mk ref q]) None None None) db1
       = (db1, Next (NotFound_product ref))).
Proof.
  intros Hp Hs db1.
  assert (E : deleteProduct user id db = (set_products db (delete id (products db)), Json 200 tt))
    by (unfold deleteProduct; rewrite (ownProduct_ok _ _ _ _ _ p Hp Hs); reflexivity).
  assert (Hgone : products db1 !! id = None)
    by (subst db1; rewrite E; simpl; apply lookup_delete_eq).
  split; [rewrite E; reflexivity|]. split; [exact Hgone|]. split; [|split; [|split]].
  - intros k Hk. subst db1. rewrite E. simpl. apply lookup_delete_ne. congruence.
  - subst db1. rewrite E. reflexivity.
  - subst db1. rewrite E. reflexivity.
  - intros env customer ref q Hid. unfold createOrder. simpl.
    unfold reserve. simpl. rewrite Hid, Hgone. rewrite set_products_same. reflexivity.
Qed.

(** Tea is removed by its shop; a request for one unit of it is refused. *)
Lemma deleteProduct_then_orders_witness :
  let db1 := fst (deleteProduct owner1 "p1" db0) in
  products db1 !! "p1" = None /\
  createOrder env1 alice (body_one (RefId "p1")) db1
  = (db1, Next (mkError "Product p1 not found" 404)).
Proof.
  intros db1.
  destruct (deleteProduct_then_orders owner1 "p1" db0 tea) as (_ & Hg & _ & _ & _ & H);
    [reflexivity..|].
  split; [exact Hg|]. apply (H env1 alice (RefId "p1") 1). reflexivity.
Defined.



(** ** Notifications *)

Lemma countDocuments_insert_fresh (f : Notif.t -> bool) k v (coll : gmap string Notif.t) :
  coll !! k = None ->
  Notifications.countDocuments f (<[k := v]> coll)
  = Notifications.countDocuments f coll + b2z (f v).
Proof.
  intros Hk. unfold Notifications.countDocuments.
  rewrite (filter_length_Permutation f _ (snd <$> ((k, v) :: map_to_list coll))).
  2:{ apply fmap_Permutation, map_to_list_insert, Hk. }
  rewrite fmap_cons. simpl. destruct (f v); simpl; unfold b2z; lia.
Qed.

Lemma countDocuments_delete (f : Notif.t -> bool) k v (coll : gmap string Notif.t) :
  coll !! k = Some v ->
  Notifications.countDocuments f (delete k coll)
  = Notifications.countDocuments f coll - b2z (f v).
Proof.
  intros Hk.
  rewrite <- (insert_delete_id coll k v Hk) at 2.
  rewrite countDocuments_insert_fresh by apply lookup_delete_eq. lia.
Qed.

Lemma countDocuments_insert (f : Notif.t -> bool) k v0 v (coll : gmap string Notif.t) :
  coll !! k = Some v0 ->
  Notifications.countDocuments f (<[k := v]> coll)
  = Notifications.countDocuments f coll - b2z (f v0) + b2z (f v).
Proof.
  intros Hk. rewrite <- (insert_delete_eq coll k v).
  rewrite countDocuments_insert_fresh by apply lookup_delete_eq.
  rewrite (countDocuments_delete f k v0) by exact Hk. reflexivity.
Qed.

Lemma countDocuments_empty (f : Notif.t -> bool) :
  Notifications.countDocuments f (∅ : gmap string Notif.t) = 0.
Proof. unfold Notifications.countDocuments. rewrite map_to_list_empty. reflexivity. Qed.

Lemma countDocuments_ext (f g : Notif.t -> bool) (coll : gmap string Notif.t) :
  (forall k v, coll !! k = Some v -> f v = g v) ->
  Notifications.countDocuments f coll = Notifications.countDocuments g coll.
Proof.
  induction coll as [|k v m Hk _ IH] using map_first_key_ind; intros H.
  - rewrite !countDocuments_empty. reflexivity.
  - rewrite !countDocuments_insert_fresh by exact Hk.
    rewrite IH.
    + rewrite (H k v) by apply lookup_insert_eq. reflexivity.
    + intros k' v' Hk'. apply (H k'). rewrite lookup_insert_ne; [exact Hk'|].
      intros ->. congruence.
Qed.

Lemma countDocuments_nonneg (f : Notif.t -> bool) (coll : gmap string Notif.t) :
  0 <= Notifications.countDocuments f coll.
Proof. unfold Notifications.countDocuments. lia. Qed.

Lemma countDocuments_none (f : Notif.t -> bool) (coll : gmap string Notif.t) :
  (forall k v, coll !! k = Some v -> f v = false) ->
  Notifications.countDocuments f coll = 0.
Proof.
  intros H. rewrite (countDocuments_ext f (fun _ => false)) by exact H.
  unfold Notifications.countDocuments.
  induction (snd <$> map_to_list coll) as [|x l IH]; simpl; [reflexivity|exact IH].
Qed.

Lemma countDocuments_le (f g : Notif.t -> bool) (coll : gmap string Notif.t) :
  (forall k v, coll !! k = Some v -> f v = true -> g v = true) ->
  Notifications.countDocuments f coll <= Notifications.countDocuments g coll.
Proof.
  induction coll as [|k v m Hk _ IH] using map_first_key_ind; intros H.
  - rewrite !countDocuments_empty. lia.
  - rewrite !countDocuments_insert_fresh by exact Hk.
    assert (Hm : Notifications.countDocuments f m <= Notifications.countDocuments g m).
    { apply IH. intros k' v' Hk'. apply (H k'). rewrite lookup_insert_ne; [exact Hk'|].
      intros ->. congruence. }
    specialize (H k v (lookup_insert_eq _ _ _)).
    destruct (f v) eqn:Hf; [rewrite H by reflexivity|]; unfold b2z; destruct (g v); lia.
Qed.

Lemma countDocuments_fmap (f : Notif.t -> bool) (g : Notif.t -> Notif.t)
    (coll : gmap string Notif.t) :
  Notifications.countDocuments f (g <$> coll)
  = Notifications.countDocuments (fun n => f (g n)) coll.
Proof.
  induction coll as [|k v m Hk _ IH] using map_first_key_ind.
  - rewrite fmap_empty, !countDocuments_empty. reflexivity.
  - rewrite fmap_insert.
    rewrite !countDocuments_insert_fresh;
      [|exact Hk|rewrite lookup_fmap, Hk; reflexivity].
    rewrite IH. reflexivity.
Qed.

Lemma countDocuments_filter (f : Notif.t -> bool) (P : string * Notif.t -> Prop)
    {HD : forall kv, Decision (P kv)} (coll : gmap string Notif.t) :
  (forall k v, coll !! k = Some v -> f v = true -> P (k, v)) ->
  Notifications.countDocuments f (filter P coll) = Notifications.countDocuments f coll.
Proof.
  induction coll as [|k v m Hk _ IH] using map_first_key_ind; intros H.
  - rewrite map_filter_empty. reflexivity.
  - assert (Hm : Notifications.countDocuments f (filter P m) = Notifications.countDocuments f m).
    { apply IH. intros k' v' Hk'. apply (H k'). rewrite lookup_insert_ne; [exact Hk'|].
      intros ->. congruence. }
    specialize (H k v (lookup_insert_eq _ _ _)).
    rewrite (countDocuments_insert_fresh f k v m) by exact Hk.
    destruct (decide (P (k, v))) as [HP|HP].
    + rewrite map_filter_insert_True by exact HP.
      rewrite countDocuments_insert_fresh by (apply map_lookup_filter_None; left; exact Hk).
      rewrite Hm. reflexivity.
    + rewrite map_filter_insert_not' by (intros; exact HP || congruence).
      rewrite Hm. destruct (f v); [exfalso; apply HP, H; reflexivity|]. unfold b2z. lia.
Qed.

Lemma unreadFor_other u uid t n :
  Notif.user n = Some uid -> u <> uid -> Notifications.unreadFor u t n = false.
Proof.
  intros Hu Hne. unfold Notifications.unreadFor.
  rewrite bool_decide_eq_false_2; [reflexivity|]. rewrite Hu. congruence.
Qed.

Lemma unreadFor_read u t n :
  Notif.isRead n = true -> Notifications.unreadFor u t n = false.
Proof.
  intros Hr. unfold Notifications.unreadFor. rewrite Hr.
  destruct (bool_decide _); reflexivity.
Qed.

Lemma pre_save_read now n :
  Notif.isRead (Notifications.pre_save now n) = Notif.isRead n /\
  Notif.user (Notifications.pre_save now n) = Notif.user n /\
  Notif.readAt (Notifications.pre_save now n) = Notif.readAt n /\
  Notif.expiresAt (Notifications.pre_save now n)
  = Some (default (now + 2592000000) (Notif.expiresAt n)).
Proof.
  unfold Notifications.pre_save. destruct (Notif.expiresAt n) eqn:He; simpl; auto.
Qed.




Lemma markAllAsRead_lookup (now : Z) (uid : string) (coll : gmap string Notif.t) :
  let coll' := Notifications.markAllAsRead now uid coll in
  (forall id n, coll !! id = Some n ->
     Notif.user n <> Some uid \/ Notif.isRead n = true -> coll' !! id = Some n) /\
  (forall id n, coll !! id = Some n ->
     Notif.user n = Some uid -> Notif.isRead n = false ->
     coll' !! id = Some (Notifications.set_read n now)) /\
  (forall id, coll' !! id = None <-> coll !! id = None).
Proof.
  cbv zeta. unfold Notifications.markAllAsRead. repeat split.
  - intros id n Hn Hor. rewrite lookup_fmap, Hn. simpl. f_equal.
    destruct Hor as [Hu|Hr].
    + rewrite bool_decide_eq_false_2 by exact Hu. reflexivity.
    + rewrite Hr, andb_false_r. reflexivity.
  - intros id n Hn Hu Hr. rewrite lookup_fmap, Hn. simpl. f_equal.
    rewrite bool_decide_eq_true_2 by exact Hu. rewrite Hr. reflexivity.
  - intros H. rewrite lookup_fmap in H. destruct (coll !! id); [discriminate|reflexivity].
  - intros H. rewrite lookup_fmap, H. reflexivity.
Qed.

Lemma markAllAsRead_count_other (now : Z) (uid : string) (coll : gmap string Notif.t) t u :
  u <> uid ->
  Notifications.getUnreadCount t u (Notifications.markAllAsRead now uid coll)
  = Notifications.getUnreadCount t u coll.
Proof.
  intros Hne. unfold Notifications.markAllAsRead, Notifications.getUnreadCount.
  rewrite countDocuments_fmap. apply countDocuments_ext.
  intros k v _. destruct (bool_decide (Notif.user v = Some uid)) eqn:Hu; simpl; [|reflexivity].
  apply bool_decide_eq_true_1 in Hu.
  destruct (Notif.isRead v) eqn:Hr; simpl; [reflexivity|].
  rewrite (unreadFor_other u uid t v Hu Hne).
  apply unreadFor_read. reflexivity.
Qed.

(** X22. After [markAllAsRead] a user's unread count is 0 at every time;
    the notifications of other users, and those the user had read before
    (with the time they were read), are stored as they were, and no
    notification is removed or added. *)
Theorem markAllAsRead_clears (now : Z) (uid : string) (coll : gmap string Notif.t) :
  let coll' := Notifications.markAllAsRead now uid coll in
  (forall t, Notifications.getUnreadCount t uid coll' = 0) /\
  (forall t u, u <> uid ->
     Notifications.getUnreadCount t u coll' = Notifications.getUnreadCount t u coll) /\
  (forall id n, coll !! id = Some n ->
     Notif.user n <> Some uid \/ Notif.isRead n = true -> coll' !! id = Some n) /\
  (forall id n, coll !! id = Some n ->
     Notif.user n = Some uid -> Notif.isRead n = false ->
     coll' !! id = Some (Notifications.set_read n now)) /\
  (forall id, coll' !! id = None <-> coll !! id = None).
Proof.
  cbv zeta. split; [|split; [|apply markAllAsRead_lookup]].
  - intros t. unfold Notifications.markAllAsRead, Notifications.getUnreadCount.
    rewrite countDocuments_fmap. apply countDocuments_none.
    intros k v _. destruct (bool_decide (Notif.user v = Some uid)) eqn:Hu; simpl.
    + destruct (Notif.isRead v) eqn:Hr; simpl.
      * apply unreadFor_read, Hr.
      * apply unreadFor_read. reflexivity.
    + unfold Notifications.unreadFor. rewrite Hu. reflexivity.
  - intros t u Hne. apply markAllAsRead_count_other, Hne.
Qed.

Lemma putRead_found now user rid n coll :
  coll !! rid = Some n -> Notif.user n = Some (User.id user) ->
  Notifications.putRead now user rid coll
  = (<[rid := Notifications.pre_save now (Notifications.set_read n now)]> coll,
     Notifications.Success (Notifications.pre_save now (Notifications.set_read n now))).
Proof.
  intros Hn Hu. unfold Notifications.putRead, Notifications.findOwn.
  rewrite Hn, bool_decide_eq_true_2 by exact Hu. reflexivity.
Qed.

Lemma findOwn_Some rid uid coll n :
  Notifications.findOwn rid uid coll = Some n <-> coll !! rid = Some n /\ Notif.user n = Some uid.
Proof.
  unfold Notifications.findOwn. destruct (coll !! rid) as [m|]; [|split; [discriminate|intros [? _]; discriminate]].
  destruct (bool_decide (Notif.user m = Some uid)) eqn:Hu.
  - apply bool_decide_eq_true_1 in Hu. split.
    + intros [= ->]. auto.
    + intros [[= ->] _]. reflexivity.
  - apply bool_decide_eq_false_1 in Hu. split; [discriminate|].
    intros [[= ->] H]. contradiction.
Qed.

(** X23. The routes by which a user changes notifications (read one, mark
    all read, delete one, delete the read ones) leave every notification
    of another user stored as it was, and the unread count of every other
    user unchanged at every time. *)
Theorem notification_routes_isolated
    (now : Z) (user : User.t) (rid : string) (coll coll' : gmap string Notif.t) :
  coll' ∈ [ fst (Notifications.putRead now user rid coll);
            fst (Notifications.putMarkAllRead now user coll);
            fst (Notifications.deleteOne user rid coll);
            fst (Notifications.deleteRead user coll) ] ->
  (forall id n, coll !! id = Some n -> Notif.user n <> Some (User.id user) ->
     coll' !! id = Some n) /\
  (forall t u, u <> User.id user ->
     Notifications.getUnreadCount t u coll' = Notifications.getUnreadCount t u coll).
Proof.
  intros Hin. rewrite !elem_of_cons in Hin.
  destruct Hin as [->|[->|[->|[->|Hin]]]]; [| | | |inversion Hin].
  - unfold Notifications.putRead.
    destruct (Notifications.findOwn rid (User.id user) coll) as [n0|] eqn:Hf; simpl; [|auto].
    apply findOwn_Some in Hf. destruct Hf as [Hn0 Hu0].
    unfold Notifications.markAsRead, Notifications.save. split.
    + intros id n Hn Hne. rewrite lookup_insert_ne; [exact Hn|].
      intros ->. congruence.
    + intros t u Hne. unfold Notifications.getUnreadCount.
      rewrite (countDocuments_insert _ rid n0) by exact Hn0.
      rewrite (unreadFor_other u (User.id user) t n0 Hu0 Hne).
      rewrite (unreadFor_read u t); [unfold b2z; lia|].
      destruct (pre_save_read now (Notifications.set_read n0 now)) as (-> & _). reflexivity.
  - simpl. split.
    + intros id n Hn Hne. apply (markAllAsRead_lookup now (User.id user) coll); auto.
    + intros t u Hne. apply markAllAsRead_count_other, Hne.
  - unfold Notifications.deleteOne.
    destruct (Notifications.findOwn rid (User.id user) coll) as [n0|] eqn:Hf; simpl; [|auto].
    apply findOwn_Some in Hf. destruct Hf as [Hn0 Hu0]. split.
    + intros id n Hn Hne. rewrite lookup_delete_ne; [exact Hn|].
      intros ->. congruence.
    + intros t u Hne. unfold Notifications.getUnreadCount.
      rewrite (countDocuments_delete _ rid n0) by exact Hn0.
      rewrite (unreadFor_other u (User.id user) t n0 Hu0 Hne). unfold b2z. lia.
  - simpl. split.
    + intros id n Hn Hne. apply map_lookup_filter_Some. split; [exact Hn|].
      simpl. intros [Hu _]. contradiction.
    + intros t u Hne. unfold Notifications.getUnreadCount.
      apply countDocuments_filter. intros k v _ Hf. simpl. intros [Hu _].
      rewrite (unreadFor_other u (User.id user) t v Hu Hne) in Hf. discriminate.
Qed.

Lemma notification_routes_isolated_witness :
  let coll := Notifications.createStockAlert 0 "n2" (Some "bob") "p1" "s1" "Tea"
                (Notifications.createOrderStatusNotification 0 "n1" (Some (User.id alice)) "o1"
                   "confirmed" "ORD2401010001" ∅) in
  let coll' := fst (Notifications.putRead 5 alice "n1" coll) in
  Notifications.getUnreadCount 6 (User.id alice) coll = 1 /\
  Notifications.getUnreadCount 6 (User.id alice) coll' = 0 /\
  Notifications.getUnreadCount 6 "bob" coll' = Notifications.getUnreadCount 6 "bob" coll.
Proof.
  cbv zeta. split; [reflexivity|]. split; [reflexivity|].
  refine (proj2 (notification_routes_isolated 5 alice "n1" _ _ _) 6 "bob" _).
  - apply list_elem_of_here.
  - discriminate.
Defined.

(** X24. Reading one's own notification stores it as read at the time of
    the call, with the expiry it had (or 30 days from now if it had none),
    and lowers the caller's unread count by one exactly at the times at
    which the notification was counted; reading it again succeeds and
    moves [readAt] to the time of the later call. *)
Theorem putRead_own (now later : Z) (user : User.t) (rid : string) (n : Notif.t)
    (coll : gmap string Notif.t) :
  coll !! rid = Some n ->
  Notif.user n = Some (User.id user) ->
  exists n',
    Notifications.putRead now user rid coll = (<[rid := n']> coll, Notifications.Success n') /\
    Notif.isRead n' = true /\
    Notif.readAt n' = Some now /\
    Notif.expiresAt n' = Some (default (now + 2592000000) (Notif.expiresAt n)) /\
    (forall t, Notifications.getUnreadCount t (User.id user) (<[rid := n']> coll)
               = Notifications.getUnreadCount t (User.id user) coll
                 - b2z (Notifications.unreadFor (User.id user) t n)) /\
    exists n'',
      Notifications.putRead later user rid (<[rid := n']> coll)
      = (<[rid := n'']> coll, Notifications.Success n'') /\
      Notif.readAt n'' = Some later /\
      Notif.expiresAt n'' = Notif.expiresAt n'.
Proof.
  intros Hn Hu.
  set (n' := Notifications.pre_save now (Notifications.set_read n now)).
  destruct (pre_save_read now (Notifications.set_read n now)) as (Hr & Hus & Hra & He).
  fold n' in Hr, Hus, Hra, He. simpl in Hr, Hus, Hra, He.
  exists n'. split; [apply putRead_found; assumption|].
  split; [exact Hr|]. split; [exact Hra|]. split; [exact He|]. split.
  - intros t. unfold Notifications.getUnreadCount.
    rewrite (countDocuments_insert _ rid n) by exact Hn.
    rewrite (unreadFor_read _ t n' Hr). unfold b2z. lia.
  - set (n'' := Notifications.pre_save later (Notifications.set_read n' later)).
    destruct (pre_save_read later (Notifications.set_read n' later)) as (_ & _ & Hra2 & He2).
    fold n'' in Hra2, He2. simpl in Hra2, He2.
    exists n''. split.
    + rewrite (putRead_found later user rid n').
      * rewrite insert_insert_eq. reflexivity.
      * apply lookup_insert_eq.
      * congruence.
    + split; [exact Hra2|]. rewrite He2, He. reflexivity.
Qed.

Lemma putRead_own_witness :
  let coll := Notifications.createOrderStatusNotification 0 "n1" (Some (User.id alice)) "o1"
                "confirmed" "ORD2401010001" ∅ in
  exists n', Notifications.putRead 5 alice "n1" coll
             = (<["n1" := n']> coll, Notifications.Success n') /\
             Notif.readAt n' = Some 5.
Proof.
  cbv zeta.
  destruct (putRead_own 5 9 alice "n1"
              (Notifications.pre_save 0
                 (Notif.mk (Some (User.id alice)) "order_status"
                    ("Order " +:+ "ORD2401010001" +:+ " - "
                     +:+ toUpperCase (replace_first "_" " " "confirmed"))
                    (Notifications.statusMessage "confirmed")
                    (Some "o1") None None false false None None "medium" true false true None 0))
              (Notifications.createOrderStatusNotification 0 "n1" (Some (User.id alice)) "o1"
                 "confirmed" "ORD2401010001" ∅))
    as (n' & H1 & _ & H2 & _).
  - apply lookup_insert_eq.
  - reflexivity.
  - exists n'. split; [exact H1|exact H2].
Defined.

Lemma size_filter_count (f : Notif.t -> bool) (P : string * Notif.t -> Prop)
    {HD : forall kv, Decision (P kv)} (coll : gmap string Notif.t) :
  (forall k v, P (k, v) <-> f v = false) ->
  Z.of_nat (size coll) - Z.of_nat (size (filter P coll)) = Notifications.countDocuments f coll.
Proof.
  intros HP.
  induction coll as [|k v m Hk _ IH] using map_first_key_ind.
  - rewrite map_filter_empty, map_size_empty, countDocuments_empty. reflexivity.
  - rewrite countDocuments_insert_fresh by exact Hk.
    rewrite map_size_insert_None by exact Hk.
    destruct (f v) eqn:Hf.
    + rewrite map_filter_insert_not' by (intros; rewrite ?HP; congruence).
      unfold b2z. lia.
    + rewrite map_filter_insert_True by (apply HP; exact Hf).
      rewrite map_size_insert_None by (apply map_lookup_filter_None; left; exact Hk).
      unfold b2z. lia.
Qed.

(** X25. Deleting the read notifications removes exactly the caller's
    read ones, reports their number, and changes nobody's unread count at
    any time. *)
Theorem deleteRead_keeps_unread (user : User.t) (coll : gmap string Notif.t) :
  let mine n := bool_decide (Notif.user n = Some (User.id user)) && Notif.isRead n in
  let coll' := fst (Notifications.deleteRead user coll) in
  snd (Notifications.deleteRead user coll)
  = Notifications.Success (Notifications.countDocuments mine coll) /\
  (forall id, coll' !! id
              = match coll !! id with
                | Some n => if mine n then None else Some n
                | None => None
                end) /\
  (forall t u, Notifications.getUnreadCount t u coll' = Notifications.getUnreadCount t u coll).
Proof.
  cbv zeta. simpl. split; [|split].
  - f_equal. apply size_filter_count. intros k v. simpl.
    destruct (bool_decide (Notif.user v = Some (User.id user))) eqn:Hu; simpl.
    + apply bool_decide_eq_true_1 in Hu. split.
      * intros H. destruct (Notif.isRead v); [exfalso; apply H; auto|reflexivity].
      * intros H [_ H']. congruence.
    + apply bool_decide_eq_false_1 in Hu. split; [reflexivity|].
      intros _ [H _]. contradiction.
  - intros id. destruct (coll !! id) as [n|] eqn:Hn.
    + destruct (bool_decide (Notif.user n = Some (User.id user))) eqn:Hu; simpl.
      * apply bool_decide_eq_true_1 in Hu. destruct (Notif.isRead n) eqn:Hr.
        -- apply map_lookup_filter_None. right. intros x Hx. simpl.
           assert (x = n) by congruence. subst x. intros H. apply H. auto.
        -- apply map_lookup_filter_Some. split; [exact Hn|]. simpl. intros [_ H]. congruence.
      * apply bool_decide_eq_false_1 in Hu.
        apply map_lookup_filter_Some. split; [exact Hn|]. simpl. intros [H _]. contradiction.
    + apply map_lookup_filter_None. left. exact Hn.
  - intros t u. unfold Notifications.getUnreadCount.
    apply countDocuments_filter. intros k v _ Hf. simpl. intros [_ Hr].
    rewrite (unreadFor_read u t v Hr) in Hf. discriminate.
Qed.

(** X26. A user's unread count never grows while time passes and nothing
    is stored, and it is 0 from the moment the last notification has
    expired, whether or not anything was read. *)
Theorem getUnreadCount_fades (t1 t2 : Z) (u : string) (coll : gmap string Notif.t) :
  t1 <= t2 ->
  Notifications.getUnreadCount t2 u coll <= Notifications.getUnreadCount t1 u coll /\
  ((forall id n e, coll !! id = Some n -> Notif.expiresAt n = Some e -> e <= t2) ->
   Notifications.getUnreadCount t2 u coll = 0).
Proof.
  intros Hle. unfold Notifications.getUnreadCount. split.
  - apply countDocuments_le. intros k v _. unfold Notifications.unreadFor.
    destruct (bool_decide _); [|discriminate]. destruct (negb _); [|discriminate]. simpl.
    destruct (Notif.expiresAt v) as [e|]; [|discriminate].
    rewrite !Z.ltb_lt. lia.
  - intros Hexp. apply countDocuments_none. intros k v Hk. unfold Notifications.unreadFor.
    destruct (Notif.expiresAt v) as [e|] eqn:He.
    + specialize (Hexp k v e Hk He). apply Z.ltb_ge in Hexp. rewrite Hexp.
      apply andb_false_r.
    + apply andb_false_r.
Qed.

Lemma getUnreadCount_fades_witness :
  let coll := Notifications.createOrderStatusNotification 0 "n1" (Some "alice") "o1"
                "confirmed" "ORD2401010001" ∅ in
  3 <= 2592000000 /\
  Notifications.getUnreadCount 2592000000 "alice" coll
  <= Notifications.getUnreadCount 3 "alice" coll.
Proof.
  cbv zeta. split; [lia|].
  refine (proj1 (getUnreadCount_fades 3 2592000000 "alice" _ _)). lia.
Defined.

(** ** Routing *)

Lemma toUpperCase_nonempty (s x : string) :
  s <> "" -> String.eqb (toUpperCase s) (toUpperCase x) = true -> String.eqb x "" = false.
Proof.
  intros Hs H. destruct x as [|c x]; [|reflexivity].
  apply String.eqb_eq in H. destruct s; [contradiction|discriminate].
Qed.

(** X27. Two handlers are never run, whatever the request and whatever
    the middleware decides: [getMyShops], because [GET /:id] of the shops
    router comes first and takes [/my-shops] as an identifier, and the
    handler of [DELETE /delete-read] of the notifications router, because
    [DELETE /:id] comes first.  Every other route of the five routers
    answers a request of its own pattern. *)
Theorem shadowed_routes_never_run :
  (forall passes m path,
     fst <$> dispatch passes shopsRouter m path <> Some "getMyShops") /\
  (forall passes m path,
     fst <$> dispatch passes notificationsRouter m path <> Some "DELETE /delete-read") /\
  (forall passes,
     dispatch passes shopsRouter GET ["my-shops"]
     = if passes optionalAuth then Some ("getShop", [("id", "my-shops")]) else None) /\
  (forall passes,
     dispatch passes notificationsRouter DELETE ["delete-read"]
     = if passes protect then Some ("DELETE /:id", [("id", "delete-read")]) else None) /\
  routes_answer "x" ["getMyShops"] shopsRouter /\
  routes_answer "x" ["DELETE /delete-read"] notificationsRouter /\
  routes_answer "x" [] productsRouter /\
  routes_answer "x" [] ordersRouter /\
  routes_answer "x" [] authRouter.
Proof.
  split; [|split; [|split; [|split]]].
  - intros passes m path.
    destruct m; destruct path as [|x [|y [|z path]]]; cbn [dispatch shopsRouter Method_eqb matchPath];
      repeat (case_match; cbn [fmap option_fmap option_map fst]; try discriminate).
    all: try (cbn; discriminate).
    all: try (simplify_eq; fail).
    all: match goal with
         | H : String.eqb ?x EmptyString = true |- _ => apply String.eqb_eq in H; subst x
         end.
    all: match goal with
         | H : String.eqb (toUpperCase _) (toUpperCase EmptyString) = true |- _ =>
             vm_compute in H; discriminate H
         end.
  - intros passes m path.
    destruct m; destruct path as [|x [|y [|z path]]];
      cbn [dispatch notificationsRouter Method_eqb matchPath];
      repeat (case_match; cbn [fmap option_fmap option_map fst]; try discriminate).
    all: try (cbn; discriminate).
    all: try (simplify_eq; fail).
    all: match goal with
         | H : String.eqb ?x EmptyString = true |- _ => apply String.eqb_eq in H; subst x
         end.
    all: match goal with
         | H : String.eqb (toUpperCase _) (toUpperCase EmptyString) = true |- _ =>
             vm_compute in H; discriminate H
         end.
  - intros passes. cbn. destruct (passes optionalAuth); reflexivity.
  - intros passes. cbn. destruct (passes protect); reflexivity.
  - repeat split; unfold routes_answer;
      repeat (constructor; [first [exact I | right; reflexivity | left; set_solver]|]);
      constructor.
Qed.

(** ** Status codes *)

Ltac sent_status :=
  repeat (case_match; cbn [snd statusSent errorMiddleware fst]);
  set_solver.

(** X28. The status codes the handlers give to [ErrorResponse] never
    reach the client: whatever the request and the database, an order,
    product or shop-rating handler answers 200 (201 for a new order), or
    the error middleware answers 500 for the error it was handed. *)
Theorem error_status_never_sent
    (env : Env) (user : User.t) (body : CreateBody) (id status : string) (rating stock : Z)
    (review : option string) (db : DB) :
  statusSent (snd (createOrder env user body db)) ∈ [Some 201; Some 500; None] /\
  statusSent (snd (updateOrderStatus env user id status db)) ∈ [Some 200; Some 500; None] /\
  statusSent (snd (cancelOrder env user id db)) ∈ [Some 200; Some 500; None] /\
  statusSent (snd (rateOrder env user id rating review db)) ∈ [Some 200; Some 500; None] /\
  statusSent (snd (updateShopRating id rating db)) ∈ [Some 200; Some 500; None] /\
  statusSent (snd (updateStock user id stock db)) ∈ [Some 200; Some 500; None] /\
  statusSent (snd (toggleProductStatus user id db)) ∈ [Some 200; Some 500; None] /\
  statusSent (snd (deleteProduct user id db)) ∈ [Some 200; Some 500; None] /\
  statusSent (snd (updateProductRating user id rating review db))
  ∈ [Some 200; Some 500; None].
Proof.
  repeat split.
  - unfold createOrder. sent_status.
  - unfold updateOrderStatus. sent_status.
  - unfold cancelOrder. sent_status.
  - unfold rateOrder. sent_status.
  - unfold updateShopRating. sent_status.
  - unfold updateStock, ownProduct. sent_status.
  - unfold toggleProductStatus, ownProduct. sent_status.
  - unfold deleteProduct, ownProduct. sent_status.
  - unfold updateProductRating. sent_status.
Qed.
